(** * Algo-Trading-System: the simulation engine and the metrics engine

    A shallow embedding of [core/backtesting_engine.py],
    [core/performance_analyzer.py] and the [DatabaseManager] they write to
    and read from (the class of [old_code/backtesting/database_manager.py]),
    together with the properties of the specification that are stated
    about them.

    Numbers are IEEE binary64 values ([PrimFloat]), which is what Python's
    [float] and numpy's [float64] are.  The two differ in one respect the
    code depends on: dividing a Python number by a Python zero raises
    [ZeroDivisionError], while a division in which a numpy scalar takes
    part returns [inf] or [nan].  A scalar therefore carries its runtime
    kind. *)

From Stdlib Require Import ZArith List Floats Uint63 Bool Lia Sorted.
From stdpp Require Import base option gmap strings.
Import ListNotations.

Local Open Scope Z_scope.

(* ===================================================================== *)
(** * Python scalars and exceptions *)
(* ===================================================================== *)

Inductive exn : Type :=
| ValueError
| ZeroDivisionError
| IndexError
| KeyError (key : string).

Inductive result (A : Type) : Type :=
| Ok (a : A)
| Raise (e : exn).
Arguments Ok {A} a.
Arguments Raise {A} e.

Inductive pyval : Type :=
| PyInt (z : Z)        (* Python [int] *)
| PyFloat (f : float)  (* Python [float] *)
| NpFloat (f : float). (* [numpy.float64], what a DataFrame cell is *)

(** [float(z)]; exact below [2^53], which covers every count in this
    program. *)
Definition float_of_Z (z : Z) : float :=
  match z with
  | Zneg p => PrimFloat.opp (PrimFloat.of_uint63 (Uint63.of_Z (Zpos p)))
  | _ => PrimFloat.of_uint63 (Uint63.of_Z z)
  end.

Definition to_float (v : pyval) : float :=
  match v with
  | PyInt z => float_of_Z z
  | PyFloat f => f
  | NpFloat f => f
  end.


(** The result kind of a binary operator: numpy wins over Python, and
    [float] over [int]. *)
Definition py_arith (fz : Z -> Z -> Z) (ff : float -> float -> float)
    (x y : pyval) : pyval :=
  match x, y with
  | PyInt a, PyInt b => PyInt (fz a b)
  | NpFloat _, _ | _, NpFloat _ => NpFloat (ff (to_float x) (to_float y))
  | _, _ => PyFloat (ff (to_float x) (to_float y))
  end.

Definition py_add : pyval -> pyval -> pyval := py_arith Z.add PrimFloat.add.
Definition py_sub : pyval -> pyval -> pyval := py_arith Z.sub PrimFloat.sub.
Definition py_mul : pyval -> pyval -> pyval := py_arith Z.mul PrimFloat.mul.

Definition py_neg (x : pyval) : pyval :=
  match x with
  | PyInt a => PyInt (- a)
  | PyFloat f => PyFloat (PrimFloat.opp f)
  | NpFloat f => NpFloat (PrimFloat.opp f)
  end.

Definition py_is_zero (x : pyval) : bool :=
  match x with
  | PyInt a => a =? 0
  | PyFloat f => PrimFloat.eqb f 0
  | NpFloat f => PrimFloat.eqb f 0
  end.

(** True division [x / y]. *)
Definition py_div (x y : pyval) : result pyval :=
  match x, y with
  | NpFloat _, _ | _, NpFloat _ =>
      Ok (NpFloat (PrimFloat.div (to_float x) (to_float y)))
  | _, _ =>
      if py_is_zero y then Raise ZeroDivisionError
      else Ok (PyFloat (PrimFloat.div (to_float x) (to_float y)))
  end.

Definition py_ltb (x y : pyval) : bool :=
  match x, y with
  | PyInt a, PyInt b => a <? b
  | _, _ => PrimFloat.ltb (to_float x) (to_float y)
  end.

Definition py_leb (x y : pyval) : bool :=
  match x, y with
  | PyInt a, PyInt b => a <=? b
  | _, _ => PrimFloat.leb (to_float x) (to_float y)
  end.

(** [x > y] and [x >= y]. *)
Definition py_gtb (x y : pyval) : bool := py_ltb y x.
Definition py_geb (x y : pyval) : bool := py_leb y x.

(* ===================================================================== *)
(** * Methods: state and exceptions *)
(* ===================================================================== *)

(** A method of an object of type [S]: it updates the object and returns
    or raises; what it did to the object before raising stays done. *)
Definition M (S A : Type) : Type := S -> S * result A.

Definition ret {S A : Type} (a : A) : M S A := fun s => (s, Ok a).

Definition raise {S A : Type} (x : exn) : M S A := fun s => (s, Raise x).

Definition bind {S A B : Type} (m : M S A) (k : A -> M S B) : M S B :=
  fun s => match m s with
           | (s', Ok a) => k a s'
           | (s', Raise x) => (s', Raise x)
           end.

Definition gets {S A : Type} (f : S -> A) : M S A := fun s => (s, Ok (f s)).

Definition modify {S : Type} (f : S -> S) : M S unit := fun s => (f s, Ok tt).

(** A pure computation that may raise. *)
Definition lift {S A : Type} (r : result A) : M S A := fun s => (s, r).

Notation "x <- m ;; k" := (bind m (fun x => k))
  (at level 100, m at next level, right associativity).
Notation "m ;;; k" := (bind m (fun _ => k))
  (at level 100, right associativity).

(** [for row in rows: body(row)] *)
Fixpoint for_each {S A : Type} (l : list A) (body : A -> M S unit) : M S unit :=
  match l with
  | [] => ret tt
  | x :: l' => body x ;;; for_each l' body
  end.

(* ===================================================================== *)
(** * The ledger store: [DatabaseManager] *)
(* ===================================================================== *)

(** The SQLite database behind a [DatabaseManager] is the value of its
    three tables; statements on it always succeed (the failures of the
    store are not part of the model).

    Dates are the ['%Y-%m-%d'] texts the engine writes; their text order is
    their calendar order, so a date is modelled by its day number. *)
Definition date := Z.

Inductive trade_type : Type := BUY | SELL.

Definition trade_type_eqb (a b : trade_type) : bool :=
  match a, b with
  | BUY, BUY | SELL, SELL => true
  | _, _ => false
  end.

(** A row of table [trades].  The position of a row in the table plays the
    part of its autoincremented [id]. *)
Module Trade.
Record t : Type := mk {
  trade_date : date;
  trade_type : trade_type;
  price : float;
  shares : float;
  cash_change : float;
  portfolio_value : float
}.
End Trade.

(** A row of table [portfolio_history], whose primary key is [date]. *)
Module Portfolio.
Record t : Type := mk {
  date : date;
  cash : float;
  holdings_value : float;
  total_value : float;
  shares_held : float;
  price : float
}.
End Portfolio.

(** A row of table [performance_metrics], without its time stamp. *)
Module Perf.
Record t : Type := mk {
  initial_capital : pyval;
  final_portfolio_value : pyval;
  total_return : pyval;
  total_trades : pyval;
  winning_trades : pyval;
  losing_trades : pyval;
  win_rate : pyval;
  max_drawdown : pyval;
  sharpe_ratio : option pyval
}.
End Perf.

Record DatabaseManager : Type := mkDB {
  trades : list Trade.t;
  portfolio_history : list Portfolio.t;
  performance_metrics : list Perf.t
}.

Definition clear_data (db : DatabaseManager) : DatabaseManager :=
  mkDB [] [] [].

(** [INSERT INTO trades]: the REAL columns store the scalars as doubles. *)
Definition log_trade (trade_date : date) (ty : trade_type)
    (price shares cash_change portfolio_value : pyval)
    (db : DatabaseManager) : DatabaseManager :=
  mkDB (trades db ++
          [Trade.mk trade_date ty (to_float price) (to_float shares)
             (to_float cash_change) (to_float portfolio_value)])
       (portfolio_history db)
       (performance_metrics db).

(** [INSERT OR REPLACE INTO portfolio_history]: a row with the same date is
    deleted, then the new row is inserted. *)
Definition upsert (r : Portfolio.t) (l : list Portfolio.t) : list Portfolio.t :=
  List.filter (fun r' => negb (Portfolio.date r' =? Portfolio.date r)) l ++ [r].

Definition log_portfolio_status (d : date)
    (cash holdings_value total_value shares_held price : pyval)
    (db : DatabaseManager) : DatabaseManager :=
  mkDB (trades db)
       (upsert (Portfolio.mk d (to_float cash) (to_float holdings_value)
                  (to_float total_value) (to_float shares_held)
                  (to_float price))
               (portfolio_history db))
       (performance_metrics db).

(** [ORDER BY] a date column: a stable sort, rows with equal dates stay in
    insertion order. *)
Fixpoint insert_by {A : Type} (key : A -> date) (x : A) (l : list A) : list A :=
  match l with
  | [] => [x]
  | y :: l' => if key x <=? key y then x :: l else y :: insert_by key x l'
  end.

Definition order_by {A : Type} (key : A -> date) (l : list A) : list A :=
  fold_right (insert_by key) [] l.

Definition get_portfolio_history (db : DatabaseManager) : list Portfolio.t :=
  order_by Portfolio.date (portfolio_history db).

Definition get_trades (db : DatabaseManager) : list Trade.t :=
  order_by Trade.trade_date (trades db).

(* ===================================================================== *)
(** * The signal series *)
(* ===================================================================== *)

(** One row of [signals_df]: its index label, the cells the engine reads
    and the cells of the other indicator columns, by column name.
    [middle_band] is [None] when the frame has no such column
    ([row.get('middle_band', None)]); a missing cell is a NaN. *)
Module SignalRow.
Record t : Type := mk {
  date : date;
  price : float;
  signal : float;
  middle_band : option float;
  indicators : list (string * float)
}.
End SignalRow.

(** [row_data.get(column, default)] on an indicator column. *)
Definition row_get (row : SignalRow.t) (column : string) (default_ : pyval) : pyval :=
  match List.find (fun cell => String.eqb (fst cell) column) (SignalRow.indicators row) with
  | Some cell => NpFloat (snd cell)
  | None => default_
  end.

Record DataFrame : Type := mkDF {
  columns : list string;
  rows : list SignalRow.t
}.

(** [col in signals_df.columns] *)
Definition has_column (col : string) (df : DataFrame) : bool :=
  existsb (String.eqb col) (columns df).

Definition required_columns : list string := ["price"; "signal"]%string.

Definition missing_columns (df : DataFrame) : list string :=
  List.filter (fun col => negb (has_column col df)) required_columns.

(* ===================================================================== *)
(** * The simulation engine: [BacktestingEngine] *)
(* ===================================================================== *)

(** [strategy.get_exit_condition(current_price, position_entry_price,
    row_data)] *)
Definition exit_condition : Type := pyval -> pyval -> SignalRow.t -> bool.

(** The two strategies of [strategies/strategy_manager.py]. *)
Definition BollingerBandsStrategy : exit_condition :=
  fun current_price position_entry_price row_data =>
    let middle_band :=
      match SignalRow.middle_band row_data with
      | Some cell => NpFloat cell
      | None => PyInt 0
      end in
    py_geb current_price middle_band.

Definition MACrossoverStrategy : exit_condition :=
  fun current_price position_entry_price row_data =>
    let short_ma := row_get row_data "short_ma" (PyInt 0) in
    let long_ma := row_get row_data "long_ma" (PyInt 0) in
    py_ltb short_ma long_ma.

Record BacktestingEngine : Type := mkEngine {
  initial_capital : pyval;
  cash : pyval;
  position_shares : pyval;
  last_portfolio_value : pyval;
  db_manager : DatabaseManager;
  strategy : option exit_condition;
  current_date : date;
  current_price : pyval;
  current_row : option SignalRow.t;
  trades_executed : Z;
  winning_trades : Z;
  losing_trades : Z;
  entry_price : pyval
}.

(** [BacktestingEngine(initial_capital, db_file, strategy)], on the
    database found in [db_file].  [current_date] is [None] until the first
    row is read; it is never used before. *)
Definition __init__ (initial_capital : pyval) (db : DatabaseManager)
    (strategy : option exit_condition) : BacktestingEngine :=
  mkEngine initial_capital initial_capital (PyFloat 0) initial_capital
           db strategy 0 (PyFloat 0) None 0 0 0 (PyFloat 0).

Definition set_cash (v : pyval) (e : BacktestingEngine) :=
  mkEngine (initial_capital e) v (position_shares e) (last_portfolio_value e)
           (db_manager e) (strategy e) (current_date e) (current_price e)
           (current_row e) (trades_executed e) (winning_trades e)
           (losing_trades e) (entry_price e).

Definition set_position_shares (v : pyval) (e : BacktestingEngine) :=
  mkEngine (initial_capital e) (cash e) v (last_portfolio_value e)
           (db_manager e) (strategy e) (current_date e) (current_price e)
           (current_row e) (trades_executed e) (winning_trades e)
           (losing_trades e) (entry_price e).

Definition set_last_portfolio_value (v : pyval) (e : BacktestingEngine) :=
  mkEngine (initial_capital e) (cash e) (position_shares e) v
           (db_manager e) (strategy e) (current_date e) (current_price e)
           (current_row e) (trades_executed e) (winning_trades e)
           (losing_trades e) (entry_price e).

Definition set_db_manager (db : DatabaseManager) (e : BacktestingEngine) :=
  mkEngine (initial_capital e) (cash e) (position_shares e)
           (last_portfolio_value e) db (strategy e) (current_date e)
           (current_price e) (current_row e) (trades_executed e)
           (winning_trades e) (losing_trades e) (entry_price e).

Definition set_current (r : SignalRow.t) (e : BacktestingEngine) :=
  mkEngine (initial_capital e) (cash e) (position_shares e)
           (last_portfolio_value e) (db_manager e) (strategy e)
           (SignalRow.date r) (NpFloat (SignalRow.price r)) (Some r)
           (trades_executed e) (winning_trades e) (losing_trades e)
           (entry_price e).

Definition set_trades_executed (n : Z) (e : BacktestingEngine) :=
  mkEngine (initial_capital e) (cash e) (position_shares e)
           (last_portfolio_value e) (db_manager e) (strategy e)
           (current_date e) (current_price e) (current_row e) n
           (winning_trades e) (losing_trades e) (entry_price e).

Definition set_winning_trades (n : Z) (e : BacktestingEngine) :=
  mkEngine (initial_capital e) (cash e) (position_shares e)
           (last_portfolio_value e) (db_manager e) (strategy e)
           (current_date e) (current_price e) (current_row e)
           (trades_executed e) n (losing_trades e) (entry_price e).

Definition set_losing_trades (n : Z) (e : BacktestingEngine) :=
  mkEngine (initial_capital e) (cash e) (position_shares e)
           (last_portfolio_value e) (db_manager e) (strategy e)
           (current_date e) (current_price e) (current_row e)
           (trades_executed e) (winning_trades e) n (entry_price e).

Definition set_entry_price (v : pyval) (e : BacktestingEngine) :=
  mkEngine (initial_capital e) (cash e) (position_shares e)
           (last_portfolio_value e) (db_manager e) (strategy e)
           (current_date e) (current_price e) (current_row e)
           (trades_executed e) (winning_trades e) (losing_trades e) v.

Definition _execute_buy : M BacktestingEngine unit :=
  cash_ <- gets cash ;;
  if py_leb cash_ (PyInt 0) then ret tt
  else
    price_ <- gets current_price ;;
    (* Calculate shares to buy with all available cash *)
    shares_to_buy <- lift (py_div cash_ price_) ;;
    let cash_spent := py_mul shares_to_buy price_ in
    (* Update position *)
    modify (set_position_shares shares_to_buy) ;;;
    modify (set_cash (PyFloat 0)) ;;;
    modify (set_entry_price price_) ;;;
    (* Calculate portfolio value after trade *)
    portfolio_value <-
      gets (fun e => py_add (cash e) (py_mul (position_shares e) (current_price e))) ;;
    (* Log the trade *)
    modify (fun e =>
      set_db_manager
        (log_trade (current_date e) BUY (current_price e) shares_to_buy
                   (py_neg cash_spent) portfolio_value (db_manager e)) e) ;;;
    modify (fun e => set_trades_executed (trades_executed e + 1) e).

Definition _execute_sell : M BacktestingEngine unit :=
  shares_ <- gets position_shares ;;
  if py_leb shares_ (PyInt 0) then ret tt
  else
    price_ <- gets current_price ;;
    (* Calculate cash received *)
    let cash_received := py_mul shares_ price_ in
    let shares_sold := shares_ in
    (* Track win/loss *)
    entry_ <- gets entry_price ;;
    (if py_gtb price_ entry_
     then modify (fun e => set_winning_trades (winning_trades e + 1) e)
     else modify (fun e => set_losing_trades (losing_trades e + 1) e)) ;;;
    (* Update position *)
    modify (fun e => set_cash (py_add (cash e) cash_received) e) ;;;
    modify (set_position_shares (PyFloat 0)) ;;;
    (* Calculate portfolio value after trade *)
    portfolio_value <-
      gets (fun e => py_add (cash e) (py_mul (position_shares e) (current_price e))) ;;
    (* Log the trade *)
    modify (fun e =>
      set_db_manager
        (log_trade (current_date e) SELL (current_price e) shares_sold
                   cash_received portfolio_value (db_manager e)) e) ;;;
    modify (fun e => set_trades_executed (trades_executed e + 1) e).

Definition _check_exit_conditions (row_data : SignalRow.t) : M BacktestingEngine unit :=
  strategy_ <- gets strategy ;;
  price_ <- gets current_price ;;
  entry_ <- gets entry_price ;;
  let should_exit :=
    match strategy_ with
    | Some get_exit_condition =>
        (* Use strategy-specific exit condition *)
        get_exit_condition price_ entry_ row_data
    | None =>
        (* Default exit condition: price >= middle_band *)
        match SignalRow.middle_band row_data with
        | Some middle_band =>
            if negb (PrimFloat.is_nan middle_band)
            then py_geb price_ (NpFloat middle_band)
            else false
        | None => false
        end
    end in
  if should_exit then _execute_sell else ret tt.

Definition _update_portfolio_status : M BacktestingEngine unit :=
  current_holdings_value <-
    gets (fun e => py_mul (position_shares e) (current_price e)) ;;
  total_portfolio_value <-
    gets (fun e => py_add (cash e) current_holdings_value) ;;
  (* Log daily portfolio status *)
  modify (fun e =>
    set_db_manager
      (log_portfolio_status (current_date e) (cash e) current_holdings_value
         total_portfolio_value (position_shares e) (current_price e)
         (db_manager e)) e) ;;;
  modify (set_last_portfolio_value total_portfolio_value).

(** The backtest summary dictionary. *)
Module Summary.
Record t : Type := mk {
  initial_capital : pyval;
  final_portfolio_value : pyval;
  total_return : pyval;
  total_trades : Z;
  winning_trades : Z;
  losing_trades : Z;
  win_rate : pyval;
  profit_loss : pyval
}.
End Summary.

Definition _generate_summary : M BacktestingEngine Summary.t :=
  final_portfolio_value <- gets last_portfolio_value ;;
  initial_ <- gets initial_capital ;;
  ratio <- lift (py_div (py_sub final_portfolio_value initial_) initial_) ;;
  let total_return := py_mul ratio (PyInt 100) in
  executed <- gets trades_executed ;;
  winning <- gets winning_trades ;;
  losing <- gets losing_trades ;;
  win_rate <-
    (if 0 <? executed
     then q <- lift (py_div (PyInt winning) (PyInt (Z.max executed 1))) ;;
          ret (py_mul q (PyInt 100))
     else ret (PyInt 0)) ;;
  ret (Summary.mk initial_ final_portfolio_value total_return executed
         winning losing win_rate (py_sub final_portfolio_value initial_)).

(** The body of the main loop, for one row of [signals_df.iloc[1:]]. *)
Definition period (row : SignalRow.t) : M BacktestingEngine unit :=
  modify (set_current row) ;;;
  (* Skip if we have NaN values *)
  if PrimFloat.is_nan (SignalRow.price row) then ret tt
  else
    shares_ <- gets position_shares ;;
    (if py_gtb shares_ (PyInt 0)
     then (* check for exits first (if we hold a position) *)
       _check_exit_conditions row
     else
       if PrimFloat.eqb (SignalRow.signal row) 1
       then (* check for entries (if we do not hold a position) *)
         _execute_buy
       else ret tt) ;;;
    (* end-of-day portfolio update *)
    _update_portfolio_status.

(** Resetting the portfolio state at the start of a run. *)
Definition reset_portfolio (e : BacktestingEngine) : BacktestingEngine :=
  set_losing_trades 0
    (set_winning_trades 0
       (set_trades_executed 0
          (set_position_shares (PyFloat 0)
             (set_cash (initial_capital e) e)))).

Definition run_backtest (signals_df : DataFrame) : M BacktestingEngine Summary.t :=
  (* Clear previous data *)
  modify (fun e => set_db_manager (clear_data (db_manager e)) e) ;;;
  (* Reset portfolio state *)
  modify reset_portfolio ;;;
  (* Validate required columns *)
  (if negb (Nat.eqb (length (missing_columns signals_df)) 0)
   then raise ValueError else ret tt) ;;;
  (* Main backtesting loop - start from second day *)
  for_each (tail (rows signals_df)) period ;;;
  (* Generate final summary *)
  _generate_summary.

(* ===================================================================== *)
(** * pandas and numpy on float64 data *)
(* ===================================================================== *)

Definition float_of_nat (n : nat) : float := float_of_Z (Z.of_nat n).

(** [len(x)] *)
Definition len {A : Type} (l : list A) : Z := Z.of_nat (length l).

Definition np_sum (l : list float) : float := fold_left PrimFloat.add l 0%float.

(** [.mean()]; NaN on no data. *)
Definition np_mean (l : list float) : float :=
  PrimFloat.div (np_sum l) (float_of_nat (length l)).

(** [Series.std()], the sample standard deviation ([ddof=1]); NaN on
    fewer than two observations. *)
Definition series_std (l : list float) : float :=
  if (length l <=? 1)%nat then nan
  else
    let avg := np_mean l in
    let sqr := map (fun x => let d := PrimFloat.sub avg x in PrimFloat.mul d d) l in
    PrimFloat.sqrt (PrimFloat.div (np_sum sqr) (float_of_nat (length l - 1))).

Fixpoint pct_change_from (prev : float) (l : list float) : list float :=
  match l with
  | [] => []
  | x :: l' => PrimFloat.sub (PrimFloat.div x prev) 1 :: pct_change_from x l'
  end.

(** [Series.pct_change()]: the first element has no predecessor. *)
Definition pct_change (l : list float) : list float :=
  match l with
  | [] => []
  | x :: l' => nan :: pct_change_from x l'
  end.

Definition dropna (l : list float) : list float :=
  List.filter (fun x => negb (PrimFloat.is_nan x)) l.

Fixpoint expanding_max_from (m : float) (l : list float) : list float :=
  match l with
  | [] => []
  | x :: l' =>
      let m' := if PrimFloat.ltb m x then x else m in
      m' :: expanding_max_from m' l'
  end.

(** [Series.expanding().max()]: the running maximum. *)
Definition expanding_max (l : list float) : list float :=
  match l with
  | [] => []
  | x :: l' => x :: expanding_max_from x l'
  end.

Definition np_min (l : list float) : float :=
  match l with
  | [] => nan
  | x :: l' => fold_left (fun m y => if PrimFloat.ltb y m then y else m) l' x
  end.

Definition np_max (l : list float) : float :=
  match l with
  | [] => nan
  | x :: l' => fold_left (fun m y => if PrimFloat.ltb m y then y else m) l' x
  end.

(** [Series.min()] skips NaN. *)
Definition series_min (l : list float) : float := np_min (dropna l).

(** [.iloc[0]] and [.iloc[-1]] *)
Definition iloc_first (l : list float) : result float :=
  match l with
  | [] => Raise IndexError
  | x :: _ => Ok x
  end.

Definition iloc_last (l : list float) : result float :=
  match last l with
  | None => Raise IndexError
  | Some x => Ok x
  end.

(** [abs(x)] *)
Definition py_abs (x : pyval) : pyval :=
  match x with
  | PyInt a => PyInt (Z.abs a)
  | PyFloat f => PyFloat (PrimFloat.abs f)
  | NpFloat f => NpFloat (PrimFloat.abs f)
  end.

(* ===================================================================== *)
(** * Dictionaries *)
(* ===================================================================== *)

Abbreviation dict := (gmap string pyval).

(** [d.get(key, default)] *)
Definition dict_get (d : dict) (key : string) (default_ : pyval) : pyval :=
  default default_ (d !! key).

(** [d[key]] *)
Definition dict_getitem (d : dict) (key : string) : result pyval :=
  match d !! key with
  | Some v => Ok v
  | None => Raise (KeyError key)
  end.

(** [{**a, **b}]: the entries of [b] win. *)
Definition dict_merge (a b : dict) : dict := b ∪ a.

(** [INSERT INTO performance_metrics] *)
Definition log_performance_metrics (metrics : dict) : M DatabaseManager unit :=
  initial_capital <- lift (dict_getitem metrics "initial_capital") ;;
  final_portfolio_value <- lift (dict_getitem metrics "final_portfolio_value") ;;
  total_return <- lift (dict_getitem metrics "total_return") ;;
  total_trades <- lift (dict_getitem metrics "total_trades") ;;
  winning_trades <- lift (dict_getitem metrics "winning_trades") ;;
  losing_trades <- lift (dict_getitem metrics "losing_trades") ;;
  win_rate <- lift (dict_getitem metrics "win_rate") ;;
  max_drawdown <- lift (dict_getitem metrics "max_drawdown") ;;
  modify (fun db =>
    mkDB (trades db) (portfolio_history db)
         (performance_metrics db ++
            [Perf.mk initial_capital final_portfolio_value total_return
               total_trades winning_trades losing_trades win_rate
               max_drawdown (metrics !! "sharpe_ratio")])).

(* ===================================================================== *)
(** * The metrics engine: [PerformanceAnalyzer] *)
(* ===================================================================== *)

(** [portfolio_df] and [trades_df] are [None] until [analyze_performance]
    loads them, and are read only after that. *)
Module Analyzer.
Record t : Type := mk {
  db_manager : DatabaseManager;
  portfolio_df : list Portfolio.t;
  trades_df : list Trade.t;
  metrics : dict
}.
End Analyzer.

(** [PerformanceAnalyzer(db_manager)] *)
Definition new_analyzer (db : DatabaseManager) : Analyzer.t :=
  Analyzer.mk db [] [] ∅.

Definition set_portfolio_df (df : list Portfolio.t) (s : Analyzer.t) :=
  Analyzer.mk (Analyzer.db_manager s) df (Analyzer.trades_df s) (Analyzer.metrics s).

Definition set_trades_df (df : list Trade.t) (s : Analyzer.t) :=
  Analyzer.mk (Analyzer.db_manager s) (Analyzer.portfolio_df s) df (Analyzer.metrics s).

Definition set_metrics (m : dict) (s : Analyzer.t) :=
  Analyzer.mk (Analyzer.db_manager s) (Analyzer.portfolio_df s) (Analyzer.trades_df s) m.

(** A call of a method of [self.db_manager]. *)
Definition on_db {A : Type} (m : M DatabaseManager A) : M Analyzer.t A :=
  fun s =>
    let '(db, r) := m (Analyzer.db_manager s) in
    (Analyzer.mk db (Analyzer.portfolio_df s) (Analyzer.trades_df s)
       (Analyzer.metrics s), r).

(** [self.portfolio_df['total_value']] *)
Definition total_values (s : Analyzer.t) : list float :=
  map Portfolio.total_value (Analyzer.portfolio_df s).

Definition is_buy (t : Trade.t) : bool := trade_type_eqb (Trade.trade_type t) BUY.
Definition is_sell (t : Trade.t) : bool := trade_type_eqb (Trade.trade_type t) SELL.

(** [buy_trades[buy_trades.index < sell_trade.name]]: the frame's index is
    the trade date. *)
Definition prev_buys (buy_trades : list Trade.t) (sell_trade : Trade.t) : list Trade.t :=
  List.filter (fun b => Trade.trade_date b <? Trade.trade_date sell_trade) buy_trades.

(** The Buy a Sell is paired with: [prev_buys.iloc[-1]] when there is one. *)
Definition paired_buy (buy_trades : list Trade.t) (sell_trade : Trade.t) : option Trade.t :=
  last (prev_buys buy_trades sell_trade).

Definition pair_pnl (buy_trade sell_trade : Trade.t) : float :=
  PrimFloat.mul (PrimFloat.sub (Trade.price sell_trade) (Trade.price buy_trade))
                (Trade.shares sell_trade).

(** The loop over [sell_trades.iterrows()] that fills [trade_pnl]. *)
Definition trade_pnl_of (buy_trades sell_trades : list Trade.t) : list float :=
  flat_map (fun sell_trade =>
              match paired_buy buy_trades sell_trade with
              | Some buy_trade => [pair_pnl buy_trade sell_trade]
              | None => []
              end) sell_trades.

Definition zero_trade_metrics (total_trades : Z) : dict :=
  list_to_map
    [("total_trades", PyInt total_trades); ("winning_trades", PyInt 0);
     ("losing_trades", PyInt 0); ("win_rate", PyInt 0); ("avg_win", PyInt 0);
     ("avg_loss", PyInt 0); ("profit_factor", PyInt 0);
     ("largest_win", PyInt 0); ("largest_loss", PyInt 0)]%string.

Section Metrics.

(** [x ** y] on float64, numpy's [power]; it belongs to the C library. *)
Variable pow : float -> float -> float.

Definition _calculate_basic_metrics : M Analyzer.t dict :=
  values <- gets total_values ;;
  initial_value <- lift (iloc_first values) ;;
  final_value <- lift (iloc_last values) ;;
  (* Calculate returns *)
  let total_return :=
    PrimFloat.mul (PrimFloat.div (PrimFloat.sub final_value initial_value)
                     initial_value) 100 in
  (* Calculate daily returns *)
  let daily_returns := dropna (pct_change values) in
  (* Annualized return (assuming 252 trading days) *)
  days <- gets (fun s => len (Analyzer.portfolio_df s)) ;;
  annualized_return <-
    (if 1 <? days
     then
       exponent <- lift (py_div (PyInt 252) (PyInt days)) ;;
       ret (NpFloat (PrimFloat.mul
                       (PrimFloat.sub
                          (pow (PrimFloat.div final_value initial_value)
                               (to_float exponent)) 1) 100))
     else ret (PyInt 0)) ;;
  ret (list_to_map
         [("initial_capital", NpFloat initial_value);
          ("final_portfolio_value", NpFloat final_value);
          ("total_return", NpFloat total_return);
          ("annualized_return", annualized_return);
          ("total_days", PyInt days);
          ("avg_daily_return", NpFloat (PrimFloat.mul (np_mean daily_returns) 100));
          ("daily_volatility", NpFloat (PrimFloat.mul (series_std daily_returns) 100))
         ]%string).

Definition _calculate_risk_metrics (risk_free_rate : pyval) : M Analyzer.t dict :=
  daily_returns <- gets (fun s => dropna (pct_change (total_values s))) ;;
  if len daily_returns <? 2
  then ret (list_to_map [("sharpe_ratio", PyInt 0);
                         ("annualized_volatility", PyInt 0)]%string)
  else
    (* Annualized volatility *)
    let annualized_volatility :=
      NpFloat (PrimFloat.mul
                 (PrimFloat.mul (series_std daily_returns) (PrimFloat.sqrt 252))
                 100) in
    metrics <- gets Analyzer.metrics ;;
    (* Sharpe ratio *)
    sharpe_ratio <-
      (if py_gtb annualized_volatility (PyInt 0)
       then
         let excess_return :=
           py_sub (dict_get metrics "annualized_return" (PyInt 0))
                  (py_mul risk_free_rate (PyInt 100)) in
         lift (py_div excess_return annualized_volatility)
       else ret (PyInt 0)) ;;
    (* Sortino ratio (downside deviation) *)
    let negative_returns :=
      List.filter (fun r => PrimFloat.ltb r 0) daily_returns in
    sortino_ratio <-
      (if 0 <? len negative_returns
       then
         let downside_deviation :=
           NpFloat (PrimFloat.mul
                      (PrimFloat.mul (series_std negative_returns)
                                     (PrimFloat.sqrt 252)) 100) in
         if py_gtb downside_deviation (PyInt 0)
         then lift (py_div
                      (py_sub (dict_get metrics "annualized_return" (PyInt 0))
                              (py_mul risk_free_rate (PyInt 100)))
                      downside_deviation)
         else ret (PyInt 0)
       else
         ret (if py_gtb (dict_get metrics "annualized_return" (PyInt 0))
                        (py_mul risk_free_rate (PyInt 100))
              then PyFloat infinity else PyInt 0)) ;;
    ret (list_to_map [("annualized_volatility", annualized_volatility);
                      ("sharpe_ratio", sharpe_ratio);
                      ("sortino_ratio", sortino_ratio)]%string).

Definition _calculate_trade_metrics : M Analyzer.t dict :=
  trades_df <- gets Analyzer.trades_df ;;
  if (length trades_df =? 0)%nat
  then ret (zero_trade_metrics 0)
  else
    (* Pair buy and sell trades to calculate individual trade P&L *)
    let buy_trades := List.filter is_buy trades_df in
    let sell_trades := List.filter is_sell trades_df in
    let trade_pnl := trade_pnl_of buy_trades sell_trades in
    if (length trade_pnl =? 0)%nat
    then ret (zero_trade_metrics (len buy_trades))
    else
      let winning_trades := List.filter (fun x => PrimFloat.ltb 0 x) trade_pnl in
      let losing_trades := List.filter (fun x => PrimFloat.ltb x 0) trade_pnl in
      let total_trades := len trade_pnl in
      let win_count := len winning_trades in
      let loss_count := len losing_trades in
      win_rate <-
        (if 0 <? total_trades
         then q <- lift (py_div (PyInt win_count) (PyInt total_trades)) ;;
              ret (py_mul q (PyInt 100))
         else ret (PyInt 0)) ;;
      let avg_win :=
        if 0 <? len winning_trades then NpFloat (np_mean winning_trades)
        else PyInt 0 in
      let avg_loss :=
        if 0 <? len losing_trades then py_abs (NpFloat (np_mean losing_trades))
        else PyInt 0 in
      let profit_factor :=
        if (0 <? len losing_trades)
           && negb (PrimFloat.eqb (np_sum losing_trades) 0)
        then py_abs (NpFloat (PrimFloat.div (np_sum winning_trades)
                                            (np_sum losing_trades)))
        else PyFloat infinity in
      let largest_win :=
        if 0 <? len winning_trades then NpFloat (np_max winning_trades)
        else PyInt 0 in
      let largest_loss :=
        if 0 <? len losing_trades then py_abs (NpFloat (np_min losing_trades))
        else PyInt 0 in
      ret (list_to_map
             [("total_trades", PyInt total_trades);
              ("winning_trades", PyInt win_count);
              ("losing_trades", PyInt loss_count);
              ("win_rate", win_rate);
              ("avg_win", avg_win);
              ("avg_loss", avg_loss);
              ("profit_factor", profit_factor);
              ("largest_win", largest_win);
              ("largest_loss", largest_loss)]%string).

Definition _calculate_drawdown_metrics : M Analyzer.t dict :=
  portfolio_values <- gets total_values ;;
  (* Calculate running maximum (peak) *)
  let peak := expanding_max portfolio_values in
  (* Calculate drawdown *)
  let drawdown :=
    map (fun vp => PrimFloat.mul
                     (PrimFloat.div (PrimFloat.sub (fst vp) (snd vp)) (snd vp))
                     100)
        (combine portfolio_values peak) in
  (* Maximum drawdown *)
  let max_drawdown := series_min drawdown in
  (* Current drawdown *)
  current_drawdown <- lift (iloc_last drawdown) ;;
  (* Average drawdown *)
  let negative_drawdowns := List.filter (fun d => PrimFloat.ltb d 0) drawdown in
  let avg_drawdown :=
    if 0 <? len negative_drawdowns then NpFloat (np_mean negative_drawdowns)
    else PyInt 0 in
  ret (list_to_map [("max_drawdown", py_abs (NpFloat max_drawdown));
                    ("current_drawdown", py_abs (NpFloat current_drawdown));
                    ("avg_drawdown", py_abs avg_drawdown)]%string).

Definition analyze_performance (risk_free_rate : pyval) : M Analyzer.t dict :=
  (* Load data from database *)
  modify (fun s => set_portfolio_df (get_portfolio_history (Analyzer.db_manager s)) s) ;;;
  modify (fun s => set_trades_df (get_trades (Analyzer.db_manager s)) s) ;;;
  portfolio_df <- gets Analyzer.portfolio_df ;;
  (if (length portfolio_df =? 0)%nat then raise ValueError else ret tt) ;;;
  (* Calculate all metrics *)
  basic_metrics <- _calculate_basic_metrics ;;
  risk_metrics <- _calculate_risk_metrics risk_free_rate ;;
  trade_metrics <- _calculate_trade_metrics ;;
  drawdown_metrics <- _calculate_drawdown_metrics ;;
  (* Combine all metrics *)
  let metrics :=
    dict_merge (dict_merge (dict_merge basic_metrics risk_metrics) trade_metrics)
               drawdown_metrics in
  modify (set_metrics metrics) ;;;
  (* Store metrics in database *)
  on_db (log_performance_metrics metrics) ;;;
  ret metrics.

End Metrics.

(* ===================================================================== *)
(** * The engine's methods as functions on the engine state *)
(* ===================================================================== *)

(** The definitions of this part restate, method by method, the state a
    method leaves behind; each is proved equal to the method further down
    ([_execute_buy_eq], [period_eq], [run_backtest_eq], ...). *)

(** The engine after a Buy that went through. *)
Definition bought (e : BacktestingEngine) : BacktestingEngine :=
  let shares_to_buy :=
    NpFloat (PrimFloat.div (to_float (cash e)) (to_float (current_price e))) in
  let e1 := set_entry_price (current_price e)
              (set_cash (PyFloat 0) (set_position_shares shares_to_buy e)) in
  set_trades_executed (trades_executed e + 1)
    (set_db_manager
       (log_trade (current_date e) BUY (current_price e) shares_to_buy
          (py_neg (py_mul shares_to_buy (current_price e)))
          (py_add (cash e1) (py_mul (position_shares e1) (current_price e1)))
          (db_manager e)) e1).

(** The engine after a Sell that went through. *)
Definition sold (e : BacktestingEngine) : BacktestingEngine :=
  let cash_received := py_mul (position_shares e) (current_price e) in
  let e1 := if py_gtb (current_price e) (entry_price e)
            then set_winning_trades (winning_trades e + 1) e
            else set_losing_trades (losing_trades e + 1) e in
  let e2 := set_position_shares (PyFloat 0)
              (set_cash (py_add (cash e) cash_received) e1) in
  set_trades_executed (trades_executed e + 1)
    (set_db_manager
       (log_trade (current_date e) SELL (current_price e) (position_shares e)
          cash_received
          (py_add (cash e2) (py_mul (position_shares e2) (current_price e2)))
          (db_manager e)) e2).

(** [should_exit] of [_check_exit_conditions]. *)
Definition should_exit (row : SignalRow.t) (e : BacktestingEngine) : bool :=
  match strategy e with
  | Some get_exit_condition =>
      get_exit_condition (current_price e) (entry_price e) row
  | None =>
      match SignalRow.middle_band row with
      | Some middle_band =>
          if negb (PrimFloat.is_nan middle_band)
          then py_geb (current_price e) (NpFloat middle_band)
          else false
      | None => false
      end
  end.

(** The snapshot [_update_portfolio_status] logs. *)
Definition snapshot (e : BacktestingEngine) : Portfolio.t :=
  let holdings := py_mul (position_shares e) (current_price e) in
  Portfolio.mk (current_date e) (to_float (cash e)) (to_float holdings)
    (to_float (py_add (cash e) holdings)) (to_float (position_shares e))
    (to_float (current_price e)).

(** The engine after [_update_portfolio_status]. *)
Definition marked (e : BacktestingEngine) : BacktestingEngine :=
  let holdings := py_mul (position_shares e) (current_price e) in
  let total := py_add (cash e) holdings in
  set_last_portfolio_value total
    (set_db_manager
       (log_portfolio_status (current_date e) (cash e) holdings total
          (position_shares e) (current_price e) (db_manager e)) e).

(** The engine after the exit-or-entry decision of a processed period. *)
Definition traded (row : SignalRow.t) (e : BacktestingEngine) : BacktestingEngine :=
  if py_gtb (position_shares e) (PyInt 0)
  then if should_exit row e
       then if py_leb (position_shares e) (PyInt 0) then e else sold e
       else e
  else if PrimFloat.eqb (SignalRow.signal row) 1
       then if py_leb (cash e) (PyInt 0) then e else bought e
       else e.

(** The engine after one pass of the loop body. *)
Definition after_period (row : SignalRow.t) (e : BacktestingEngine) : BacktestingEngine :=
  if PrimFloat.is_nan (SignalRow.price row) then set_current row e
  else marked (traded row (set_current row e)).

Definition after_periods (l : list SignalRow.t) (e : BacktestingEngine) : BacktestingEngine :=
  fold_left (fun e row => after_period row e) l e.

(** The engine when the columns are validated: store cleared, portfolio
    reset. *)
Definition started (e : BacktestingEngine) : BacktestingEngine :=
  reset_portfolio (set_db_manager (clear_data (db_manager e)) e).

(** A row the loop does not skip. *)
Definition processed (row : SignalRow.t) : bool := negb (PrimFloat.is_nan (SignalRow.price row)).

(* ===================================================================== *)
(** * Properties of trade and snapshot sequences *)
(* ===================================================================== *)

Definition other (ty : trade_type) : trade_type :=
  match ty with BUY => SELL | SELL => BUY end.

(** [alternating ty l]: [l] is [ty, other ty, ty, ...]. *)
Fixpoint alternating (ty : trade_type) (l : list trade_type) : bool :=
  match l with
  | [] => true
  | x :: l' => trade_type_eqb x ty && alternating (other ty) l'
  end.

(** The type the next record of an alternating sequence has. *)
Definition next_type (l : list trade_type) : trade_type :=
  if Nat.even (length l) then BUY else SELL.

Definition trade_types (e : BacktestingEngine) : list trade_type :=
  map Trade.trade_type (trades (db_manager e)).

(** What the loop keeps true: the records alternate; while the next record
    is a Buy no position is held, and while it is a Sell there is no cash
    to buy with. *)
Definition alternation_inv (e : BacktestingEngine) : Prop :=
  alternating BUY (trade_types e) = true
  /\ match next_type (trade_types e) with
     | BUY => py_gtb (position_shares e) (PyInt 0) = false
     | SELL => py_leb (cash e) (PyInt 0) = true
     end.

Definition count_type (ty : trade_type) (l : list Trade.t) : Z :=
  len (List.filter (fun t => trade_type_eqb (Trade.trade_type t) ty) l).


(** What the loop keeps true of the counters: every logged trade is
    counted, and every Sell is a win or a loss. *)
Definition counters_inv (e : BacktestingEngine) : Prop :=
  trades_executed e = len (trades (db_manager e))
  /\ winning_trades e + losing_trades e = count_type SELL (trades (db_manager e)).


(** Conservation in a stored snapshot. *)
Definition conserved (r : Portfolio.t) : Prop :=
  Portfolio.total_value r =
    PrimFloat.add (Portfolio.cash r) (Portfolio.holdings_value r)
  /\ Portfolio.holdings_value r =
       PrimFloat.mul (Portfolio.shares_held r) (Portfolio.price r).

(** Date order of the rows of a frame. *)
Definition key_le {A : Type} (key : A -> date) (a b : A) : Prop := key a <= key b.

(** The entry of a metrics dictionary, when the analysis returned one. *)
Definition metric (r : result dict) (key : string) : option pyval :=
  match r with
  | Ok m => m !! key
  | Raise _ => None
  end.

(** [daily_returns] of the metrics methods. *)
Definition daily_returns_of (values : list float) : list float :=
  dropna (pct_change values).

Definition annualized_volatility_of (daily_returns : list float) : float :=
  PrimFloat.mul (PrimFloat.mul (series_std daily_returns) (PrimFloat.sqrt 252)) 100.

(** The Sharpe ratio [_calculate_risk_metrics] computes over the total
    values [values], as a function of what the analyzer's [metrics] hold
    when it is called. *)
Definition sharpe_ratio_of (metrics : dict) (risk_free_rate : pyval)
    (values : list float) : pyval :=
  let daily_returns := daily_returns_of values in
  if len daily_returns <? 2 then PyInt 0
  else
    let vol := annualized_volatility_of daily_returns in
    if PrimFloat.ltb 0 vol
    then NpFloat (PrimFloat.div
                    (to_float (py_sub (dict_get metrics "annualized_return" (PyInt 0))
                                      (py_mul risk_free_rate (PyInt 100))))
                    vol)
    else PyInt 0.

Definition trade_keys : list string :=
  ["total_trades"; "winning_trades"; "losing_trades"; "win_rate"; "avg_win";
   "avg_loss"; "profit_factor"; "largest_win"; "largest_loss"]%string.

(** The other keys of the metrics dictionary. *)
Definition metric_keys : list string :=
  ["initial_capital"; "final_portfolio_value"; "total_return";
   "annualized_return"; "total_days"; "avg_daily_return"; "daily_volatility";
   "annualized_volatility"; "sharpe_ratio"; "sortino_ratio"; "max_drawdown";
   "current_drawdown"; "avg_drawdown"]%string.

(** The analyzer once [analyze_performance] has loaded the two frames. *)
Definition loaded (a : Analyzer.t) : Analyzer.t :=
  set_trades_df (get_trades (Analyzer.db_manager a))
    (set_portfolio_df (get_portfolio_history (Analyzer.db_manager a)) a).

(* ===================================================================== *)
(** * Inputs of the examples *)
(* ===================================================================== *)

Definition bb_columns : list string := ["price"; "signal"; "middle_band"]%string.

Definition empty_db : DatabaseManager := mkDB [] [] [].

(** A winning round trip: Buy at 10 on day 2, Sell at 15 on day 3. *)
Definition round_trip_df : DataFrame :=
  mkDF bb_columns
    [SignalRow.mk 1 10 0 (Some nan) [];
     SignalRow.mk 2 10 1 (Some 12%float) [];
     SignalRow.mk 3 15 0 (Some 12%float) []].


Definition no_signal_df : DataFrame :=
  mkDF ["price"; "middle_band"]%string (rows round_trip_df).


Definition no_rows_df : DataFrame := mkDF bb_columns [].

Definition all_nan_df : DataFrame :=
  mkDF bb_columns [SignalRow.mk 1 nan 0 (Some nan) []; SignalRow.mk 2 nan 1 (Some nan) []].

Definition fresh_engine : BacktestingEngine :=
  __init__ (PyFloat 100000) empty_db None.

(** The engine after a first backtest, about to be run again. *)
Definition used_engine : BacktestingEngine :=
  fst (run_backtest round_trip_df fresh_engine).


(** A Buy on day 2 that is never sold (the frame has no middle band):
    100 of capital in 10 shares at 10, marked at 10, 11 and 13. *)
Definition hold_df : DataFrame :=
  mkDF required_columns
    [SignalRow.mk 1 10 0 None []; SignalRow.mk 2 10 1 None []; SignalRow.mk 3 11 0 None [];
     SignalRow.mk 4 13 0 None []].

(** The store after that run: one Buy, snapshots worth 100, 110 and 130. *)
Definition hold_db : DatabaseManager :=
  db_manager (fst (run_backtest hold_df (__init__ (PyFloat 100) empty_db None))).



(** The examples evaluate [x ** y] at whole exponents [y] up to 252, which
    is what [252 / days] is when [days] divides 252, by repeated squaring;
    the C library's result is the same up to rounding.  No statement about
    arbitrary inputs depends on this function. *)
Fixpoint pow_pos (x : float) (p : positive) : float :=
  match p with
  | xH => x
  | xO p' => let y := pow_pos x p' in PrimFloat.mul y y
  | xI p' => let y := pow_pos x p' in PrimFloat.mul x (PrimFloat.mul y y)
  end.

Definition pow_whole (x y : float) : float :=
  match List.find (fun n => PrimFloat.eqb (float_of_nat n) y) (seq 0 253) with
  | Some O => 1%float
  | Some (S n) => pow_pos x (Pos.of_succ_nat n)
  | None => nan
  end.

(** The default risk-free rate, [0.02]. *)
Definition default_rate : pyval := PyFloat 0.02.

(** The first three analyses of one analyzer over [hold_db]. *)
Definition first_analysis : Analyzer.t * result dict :=
  analyze_performance pow_whole default_rate (new_analyzer hold_db).

Definition second_analysis : Analyzer.t * result dict :=
  analyze_performance pow_whole default_rate (fst first_analysis).

Definition third_analysis : Analyzer.t * result dict :=
  analyze_performance pow_whole default_rate (fst second_analysis).

(** The scenarios of the specification: 100000 of capital over prices 10,
    10, 12 with a Buy signal on the second day and no middle band; the
    same prices with no Buy signal at all; and a round trip of 100 shares
    bought at 10 and sold at 15. *)
Definition scenario_df : DataFrame :=
  mkDF required_columns
    [SignalRow.mk 1 10 0 None []; SignalRow.mk 2 10 1 None []; SignalRow.mk 3 12 0 None []].

Definition no_buy_df : DataFrame :=
  mkDF required_columns
    [SignalRow.mk 1 10 0 None []; SignalRow.mk 2 10 0 None []; SignalRow.mk 3 12 0 None []].

Definition hundred_shares_db : DatabaseManager :=
  db_manager (fst (run_backtest round_trip_df (__init__ (PyFloat 1000) empty_db None))).

(* ===================================================================== *)
(** * Further methods of the three classes *)
(* ===================================================================== *)

(** The dictionary [get_current_position] returns. *)
Module Position.
Record t : Type := mk {
  cash : pyval;
  shares : pyval;
  portfolio_value : pyval
}.
End Position.

(** The three read accessors of [BacktestingEngine]. *)
Module Engine.
Definition get_portfolio_history (e : BacktestingEngine) : list Portfolio.t :=
  get_portfolio_history (db_manager e).

Definition get_trades (e : BacktestingEngine) : list Trade.t :=
  get_trades (db_manager e).

End Engine.

(** The dictionary [get_last_backtest_summary] returns; [date_range] is
    the pair of dates its text shows. *)
Module LastSummary.
Record t : Type := mk {
  final_portfolio_value : float;
  total_trades : Z;
  date_range : date * date;
  last_update : date
}.
End LastSummary.

(** [DatabaseManager.get_last_backtest_summary]: [None] on an empty
    portfolio history. *)
Definition get_last_backtest_summary (db : DatabaseManager) : option LastSummary.t :=
  let portfolio_df := get_portfolio_history db in
  let trades_df := get_trades db in
  match portfolio_df, last portfolio_df with
  | first_row :: _, Some last_row =>
      Some (LastSummary.mk (Portfolio.total_value last_row) (len trades_df)
              (Portfolio.date first_row, Portfolio.date last_row)
              (Portfolio.date last_row))
  | _, _ => None
  end.

(** [not d] on a dictionary. *)
Definition dict_is_empty (d : dict) : bool := Nat.eqb (size d) 0.

(** [PerformanceAnalyzer.print_performance_report]: the numbers it
    formats, in the order it prints them; nothing when there are no
    metrics. *)
Definition print_performance_report : M Analyzer.t (list pyval) :=
  metrics <- gets Analyzer.metrics ;;
  if dict_is_empty metrics then ret []
  else
    (* Basic Performance *)
    initial_capital <- lift (dict_getitem metrics "initial_capital") ;;
    final_portfolio <- lift (dict_getitem metrics "final_portfolio_value") ;;
    total_return <- lift (dict_getitem metrics "total_return") ;;
    annualized_return <- lift (dict_getitem metrics "annualized_return") ;;
    final_ <- lift (dict_getitem metrics "final_portfolio_value") ;;
    initial_ <- lift (dict_getitem metrics "initial_capital") ;;
    let profit_loss := py_sub final_ initial_ in
    (* Risk Metrics *)
    annualized_volatility <- lift (dict_getitem metrics "annualized_volatility") ;;
    sharpe_ratio <- lift (dict_getitem metrics "sharpe_ratio") ;;
    sortino_ratio <- lift (dict_getitem metrics "sortino_ratio") ;;
    max_drawdown <- lift (dict_getitem metrics "max_drawdown") ;;
    (* Trade Analysis *)
    total_trades <- lift (dict_getitem metrics "total_trades") ;;
    winning_trades <- lift (dict_getitem metrics "winning_trades") ;;
    losing_trades <- lift (dict_getitem metrics "losing_trades") ;;
    win_rate <- lift (dict_getitem metrics "win_rate") ;;
    avg_win <- lift (dict_getitem metrics "avg_win") ;;
    avg_loss <- lift (dict_getitem metrics "avg_loss") ;;
    profit_factor <- lift (dict_getitem metrics "profit_factor") ;;
    ret [initial_capital; final_portfolio; total_return; annualized_return;
         profit_loss; annualized_volatility; sharpe_ratio; sortino_ratio;
         max_drawdown; total_trades; winning_trades; losing_trades; win_rate;
         avg_win; avg_loss; profit_factor].

(** [PerformanceAnalyzer.get_metrics_summary]: the numbers of its text,
    [None] for the text that says there are no metrics. *)
Definition get_metrics_summary : M Analyzer.t (option (list pyval)) :=
  metrics <- gets Analyzer.metrics ;;
  if dict_is_empty metrics then ret None
  else
    total_return <- lift (dict_getitem metrics "total_return") ;;
    annualized_return <- lift (dict_getitem metrics "annualized_return") ;;
    sharpe_ratio <- lift (dict_getitem metrics "sharpe_ratio") ;;
    max_drawdown <- lift (dict_getitem metrics "max_drawdown") ;;
    win_rate <- lift (dict_getitem metrics "win_rate") ;;
    total_trades <- lift (dict_getitem metrics "total_trades") ;;
    ret (Some [total_return; annualized_return; sharpe_ratio; max_drawdown;
               win_rate; total_trades]).

Inductive win_or_loss : Type := Win | Loss.

(** A row of the trade analysis [export_trade_analysis] writes. *)
Module TradeAnalysis.
Record t : Type := mk {
  Trade_Number : Z;
  Entry_Date : date;
  Entry_Price : float;
  Exit_Date : date;
  Exit_Price : float;
  Shares : float;
  Profit_Loss_Dollar : float;
  Profit_Loss_Percent : float;
  Trade_Duration_Days : Z;
  Trade_Type : win_or_loss
}.
End TradeAnalysis.

(** One pass of the loop of [export_trade_analysis] over the Sells. *)
Definition export_step (buy_trades : list Trade.t)
    (trade_analysis : list TradeAnalysis.t) (sell_trade : Trade.t)
    : list TradeAnalysis.t :=
  (* Find the corresponding buy trade (most recent before this sell) *)
  match last (prev_buys buy_trades sell_trade) with
  | Some buy_trade =>
      (* Calculate profit/loss *)
      let profit_loss :=
        PrimFloat.mul (PrimFloat.sub (Trade.price sell_trade) (Trade.price buy_trade))
                      (Trade.shares sell_trade) in
      let profit_loss_pct :=
        PrimFloat.mul
          (PrimFloat.div (PrimFloat.sub (Trade.price sell_trade) (Trade.price buy_trade))
                         (Trade.price buy_trade)) 100 in
      trade_analysis ++
        [TradeAnalysis.mk (len trade_analysis + 1)
           (Trade.trade_date buy_trade) (Trade.price buy_trade)
           (Trade.trade_date sell_trade) (Trade.price sell_trade)
           (Trade.shares sell_trade) profit_loss profit_loss_pct
           (Trade.trade_date sell_trade - Trade.trade_date buy_trade)
           (if PrimFloat.ltb 0 profit_loss then Win else Loss)]
  | None => trade_analysis
  end.

(** [PerformanceAnalyzer.export_trade_analysis]: the rows it writes to the
    CSV file, none when it writes no file. *)
Definition export_trade_analysis (s : Analyzer.t) : list TradeAnalysis.t :=
  let trades_df := Analyzer.trades_df s in
  if (length trades_df =? 0)%nat then []
  else
    (* Pair buy and sell trades *)
    let buy_trades := List.filter is_buy trades_df in
    let sell_trades := List.filter is_sell trades_df in
    fold_left (export_step buy_trades) sell_trades [].

(* ===================================================================== *)
(** * Further properties of runs *)
(* ===================================================================== *)

(** All-in or all-out: no position, or no cash. *)
Definition flat_or_invested (e : BacktestingEngine) : Prop :=
  position_shares e = PyFloat 0 \/ cash e = PyFloat 0.

(** What a row and the records written for it have in common. *)
Definition row_stamp (row : SignalRow.t) : date * float := (SignalRow.date row, SignalRow.price row).
Definition trade_stamp (t : Trade.t) : date * float := (Trade.trade_date t, Trade.price t).

(** The rows of a run that are processed. *)
Definition processed_rows (df : DataFrame) : list SignalRow.t :=
  List.filter processed (tail (rows df)).

(** The completed round trips of a trade log that alternates from a Buy:
    each Buy with the Sell logged after it. *)
Fixpoint round_trips (l : list Trade.t) : list (Trade.t * Trade.t) :=
  match l with
  | b :: s :: l' => (b, s) :: round_trips l'
  | _ => []
  end.

(** A round trip sold above its entry price, as [_execute_sell] tests it. *)
Definition sold_higher (bs : Trade.t * Trade.t) : bool :=
  PrimFloat.ltb (Trade.price (fst bs)) (Trade.price (snd bs)).

(** A well-formed round trip: a Buy, then a Sell of the same shares at a
    date-stamped later row. *)
Definition round_trip_ok (bs : Trade.t * Trade.t) : Prop :=
  Trade.trade_type (fst bs) = BUY /\ Trade.trade_type (snd bs) = SELL
  /\ Trade.shares (snd bs) = Trade.shares (fst bs).

(** What the loop keeps true of the round trips. *)
Definition round_trip_inv (e : BacktestingEngine) : Prop :=
  let l := trades (db_manager e) in
  Forall round_trip_ok (round_trips l)
  /\ winning_trades e = len (List.filter sold_higher (round_trips l))
  /\ losing_trades e = len (List.filter (fun bs => negb (sold_higher bs)) (round_trips l))
  /\ (next_type (trade_types e) = SELL ->
      exists (l0 : list Trade.t) (b : Trade.t),
        l = l0 ++ [b] /\ Nat.even (length l0) = true
        /\ Trade.trade_type b = BUY
        /\ to_float (position_shares e) = Trade.shares b
        /\ to_float (entry_price e) = Trade.price b).

(** Two engines that a run takes through the same states: they agree on
    everything a run reads before it writes it. *)
Definition same_run (e1 e2 : BacktestingEngine) : Prop :=
  initial_capital e1 = initial_capital e2
  /\ cash e1 = cash e2
  /\ position_shares e1 = position_shares e2
  /\ db_manager e1 = db_manager e2
  /\ strategy e1 = strategy e2
  /\ trades_executed e1 = trades_executed e2
  /\ winning_trades e1 = winning_trades e2
  /\ losing_trades e1 = losing_trades e2
  /\ (py_gtb (position_shares e1) (PyInt 0) = true -> entry_price e1 = entry_price e2).


(** [t['Trade_Type'] == 'Win'] and [t['Trade_Type'] == 'Loss'] *)
Definition is_win (r : TradeAnalysis.t) : bool :=
  match TradeAnalysis.Trade_Type r with Win => true | Loss => false end.

Definition is_loss (r : TradeAnalysis.t) : bool :=
  match TradeAnalysis.Trade_Type r with Win => false | Loss => true end.

(** The engine with the strategy object [st], as [__init__] is given it. *)
Definition with_strategy (st : option exit_condition) (e : BacktestingEngine)
    : BacktestingEngine :=
  mkEngine (initial_capital e) (cash e) (position_shares e)
           (last_portfolio_value e) (db_manager e) st (current_date e)
           (current_price e) (current_row e) (trades_executed e)
           (winning_trades e) (losing_trades e) (entry_price e).

(** A row whose middle band is absent or missing: what
    [middle_band is not None and not pd.isna(middle_band)] rejects. *)
Definition no_middle_band (row : SignalRow.t) : bool :=
  match SignalRow.middle_band row with
  | Some middle_band => PrimFloat.is_nan middle_band
  | None => true
  end.

(* ===================================================================== *)
(** * The simulation engine: equations of the methods *)
(* ===================================================================== *)

Lemma py_div_np (x : pyval) (p : float) :
  py_div x (NpFloat p) = Ok (NpFloat (PrimFloat.div (to_float x) p)).
Proof. destruct x; reflexivity. Qed.

Lemma py_mul_np (x : pyval) (p : float) :
  py_mul x (NpFloat p) = NpFloat (PrimFloat.mul (to_float x) p).
Proof. destruct x; reflexivity. Qed.

Lemma py_add_np (x : pyval) (p : float) :
  py_add x (NpFloat p) = NpFloat (PrimFloat.add (to_float x) p).
Proof. destruct x; reflexivity. Qed.



(** Only a division raises, and only [ZeroDivisionError]. *)
Lemma py_div_raises (x y : pyval) (err : exn) :
  py_div x y = Raise err -> err = ZeroDivisionError /\ py_is_zero y = true.
Proof.
  unfold py_div.
  destruct x, y; try discriminate;
    match goal with
    | |- context [if ?b then _ else _] => destruct b eqn:Hz
    end; intros H; inversion H; auto.
Qed.

Lemma py_div_ints (a b : Z) :
  b <> 0 ->
  py_div (PyInt a) (PyInt b) =
  Ok (PyFloat (PrimFloat.div (float_of_Z a) (float_of_Z b))).
Proof.
  intros Hb. unfold py_div, py_is_zero.
  destruct (Z.eqb_spec b 0); [contradiction | reflexivity].
Qed.

Lemma _execute_buy_eq (e : BacktestingEngine) (p : float) :
  current_price e = NpFloat p ->
  _execute_buy e = (if py_leb (cash e) (PyInt 0) then e else bought e, Ok tt).
Proof.
  intros Hp. unfold _execute_buy, bind, gets, modify, ret, lift. cbn beta iota.
  destruct (py_leb (cash e) (PyInt 0)); [reflexivity|].
  destruct e as [ic c ps lpv db st cd cp cr te wt lt ep]; cbn in Hp; subst cp.
  unfold bought; cbn. rewrite py_div_np. reflexivity.
Qed.

Lemma _execute_sell_eq (e : BacktestingEngine) :
  _execute_sell e =
  (if py_leb (position_shares e) (PyInt 0) then e else sold e, Ok tt).
Proof.
  unfold _execute_sell, bind, gets, modify, ret, lift. cbn beta iota.
  destruct (py_leb (position_shares e) (PyInt 0)); [reflexivity|].
  unfold sold. destruct (py_gtb (current_price e) (entry_price e)); reflexivity.
Qed.

Lemma _check_exit_conditions_eq (row : SignalRow.t) (e : BacktestingEngine) :
  _check_exit_conditions row e =
  (if should_exit row e
   then if py_leb (position_shares e) (PyInt 0) then e else sold e
   else e, Ok tt).
Proof.
  unfold _check_exit_conditions, bind, gets, ret. cbn beta iota.
  fold (should_exit row e).
  destruct (should_exit row e); [apply _execute_sell_eq | reflexivity].
Qed.

Lemma _update_portfolio_status_eq (e : BacktestingEngine) :
  _update_portfolio_status e = (marked e, Ok tt).
Proof. reflexivity. Qed.

(** The loop body never raises. *)
Lemma period_eq (row : SignalRow.t) (e : BacktestingEngine) :
  period row e = (after_period row e, Ok tt).
Proof.
  unfold period, after_period, traded, bind, modify, gets, ret. cbn beta iota.
  destruct (PrimFloat.is_nan (SignalRow.price row)); [reflexivity|].
  set (e1 := set_current row e).
  destruct (py_gtb (position_shares e1) (PyInt 0)).
  - rewrite _check_exit_conditions_eq. reflexivity.
  - destruct (PrimFloat.eqb (SignalRow.signal row) 1); [|reflexivity].
    rewrite (_execute_buy_eq e1 (SignalRow.price row)) by reflexivity. reflexivity.
Qed.

Lemma for_each_period_eq (l : list SignalRow.t) (e : BacktestingEngine) :
  for_each l period e = (after_periods l e, Ok tt).
Proof.
  revert e. induction l as [|row l IH]; intros e; [reflexivity|].
  cbn [for_each]. unfold bind. rewrite period_eq. apply IH.
Qed.

Lemma _generate_summary_state (e : BacktestingEngine) :
  fst (_generate_summary e) = e.
Proof.
  unfold _generate_summary, bind, gets, lift, ret. cbn beta iota.
  destruct (py_div _ _); [|reflexivity].
  destruct (0 <? trades_executed e); [|reflexivity].
  destruct (py_div _ _); reflexivity.
Qed.

Lemma _generate_summary_raises (e : BacktestingEngine) (err : exn) :
  snd (_generate_summary e) = Raise err -> err = ZeroDivisionError.
Proof.
  unfold _generate_summary, bind, gets, lift, ret. cbn beta iota.
  destruct (py_div (py_sub _ _) _) eqn:H1.
  - destruct (0 <? trades_executed e); [|discriminate].
    destruct (py_div (PyInt _) _) eqn:H2; [discriminate|].
    cbn. intros H; inversion H; subst. eapply py_div_raises; eauto.
  - cbn. intros H; inversion H; subst. eapply py_div_raises; eauto.
Qed.

Lemma run_backtest_eq (df : DataFrame) (e : BacktestingEngine) :
  run_backtest df e =
  match missing_columns df with
  | [] => _generate_summary (after_periods (tail (rows df)) (started e))
  | _ :: _ => (started e, Raise ValueError)
  end.
Proof.
  unfold run_backtest, bind, modify, raise, ret. cbn beta iota.
  fold (started e).
  destruct (missing_columns df); cbn [length Nat.eqb negb].
  - rewrite for_each_period_eq. reflexivity.
  - reflexivity.
Qed.

Lemma missing_columns_nil (df : DataFrame) :
  missing_columns df = [] <->
  has_column "price" df = true /\ has_column "signal" df = true.
Proof.
  unfold missing_columns, required_columns. cbn [List.filter].
  destruct (has_column "price" df), (has_column "signal" df); cbn;
    split; intros H; try discriminate; auto; destruct H; discriminate.
Qed.

(* ===================================================================== *)
(** * Alternation of the trade records *)
(* ===================================================================== *)

Lemma trade_type_eqb_refl (ty : trade_type) : trade_type_eqb ty ty = true.
Proof. destruct ty; reflexivity. Qed.

Lemma trade_type_eqb_eq (a b : trade_type) : trade_type_eqb a b = true -> a = b.
Proof. destruct a, b; (reflexivity || discriminate). Qed.

Lemma other_involutive (ty : trade_type) : other (other ty) = ty.
Proof. destruct ty; reflexivity. Qed.

Lemma alternating_snoc (l : list trade_type) (ty : trade_type) :
  alternating ty l = true ->
  alternating ty (l ++ [if Nat.even (length l) then ty else other ty]) = true.
Proof.
  revert ty. induction l as [|x l IH]; intros ty H.
  - cbn. rewrite trade_type_eqb_refl. reflexivity.
  - cbn [alternating app length] in *.
    apply andb_prop in H as [Hx Hl]. rewrite Hx. cbn [andb].
    specialize (IH (other ty) Hl). rewrite other_involutive in IH.
    rewrite Nat.even_succ, <- Nat.negb_even.
    destruct (Nat.even (length l)); exact IH.
Qed.

Lemma alternating_snoc_next (l : list trade_type) :
  alternating BUY l = true -> alternating BUY (l ++ [next_type l]) = true.
Proof. apply alternating_snoc. Qed.

Lemma next_type_snoc (l : list trade_type) (ty : trade_type) :
  next_type (l ++ [ty]) = other (next_type l).
Proof.
  unfold next_type. rewrite length_app, Nat.add_1_r, Nat.even_succ, <- Nat.negb_even.
  destruct (Nat.even (length l)); reflexivity.
Qed.

(** No Sell comes first. *)
Lemma alternating_head (l : list trade_type) :
  alternating BUY l = true -> head l <> Some SELL.
Proof.
  destruct l as [|x l]; [discriminate|]. cbn.
  intros H [= ->]. discriminate.
Qed.

(** No two neighbours have the same type. *)
Lemma alternating_neighbours (l : list trade_type) (ty : trade_type)
    (i : nat) (a b : trade_type) :
  alternating ty l = true ->
  nth_error l i = Some a -> nth_error l (S i) = Some b -> a <> b.
Proof.
  revert ty i. induction l as [|x l IH]; intros ty i H Ha Hb.
  - destruct i; discriminate.
  - cbn [alternating] in H. apply andb_prop in H as [Hx Hl].
    destruct i as [|i].
    + cbn in Ha, Hb. injection Ha as ->.
      destruct l as [|y l]; [discriminate|]. cbn in Hb. injection Hb as ->.
      cbn [alternating] in Hl. apply andb_prop in Hl as [Hy _].
      apply trade_type_eqb_eq in Hx, Hy. subst. destruct ty; discriminate.
    + cbn in Ha, Hb. exact (IH (other ty) i Hl Ha Hb).
Qed.

Lemma trade_types_bought (e : BacktestingEngine) :
  trade_types (bought e) = trade_types e ++ [BUY].
Proof. unfold trade_types, bought. cbn. rewrite map_app. reflexivity. Qed.

Lemma trade_types_sold (e : BacktestingEngine) :
  trade_types (sold e) = trade_types e ++ [SELL].
Proof.
  unfold trade_types, sold.
  destruct (py_gtb (current_price e) (entry_price e)); cbn;
    rewrite map_app; reflexivity.
Qed.

Lemma alternation_inv_traded (row : SignalRow.t) (e : BacktestingEngine) :
  alternation_inv e -> alternation_inv (traded row e).
Proof.
  intros Hinv. pose proof Hinv as [Halt Hnext]. unfold traded.
  destruct (py_gtb (position_shares e) (PyInt 0)) eqn:Hheld.
  - destruct (should_exit row e); [|exact Hinv].
    destruct (py_leb (position_shares e) (PyInt 0)); [exact Hinv|].
    (* a Sell: a position is held, so the next record was due to be a Sell *)
    destruct (next_type (trade_types e)) eqn:Hty; [congruence|].
    split.
    + rewrite trade_types_sold.
      pose proof (alternating_snoc_next _ Halt) as H. rewrite Hty in H. exact H.
    + rewrite trade_types_sold, next_type_snoc, Hty. cbn [other].
      unfold sold. destruct (py_gtb (current_price e) (entry_price e)); reflexivity.
  - destruct (PrimFloat.eqb (SignalRow.signal row) 1); [|exact Hinv].
    destruct (py_leb (cash e) (PyInt 0)) eqn:Hcash; [exact Hinv|].
    (* a Buy: there is cash, so the next record was due to be a Buy *)
    destruct (next_type (trade_types e)) eqn:Hty; [|congruence].
    split.
    + rewrite trade_types_bought.
      pose proof (alternating_snoc_next _ Halt) as H. rewrite Hty in H. exact H.
    + rewrite trade_types_bought, next_type_snoc, Hty. reflexivity.
Qed.

Lemma alternation_inv_after_period (row : SignalRow.t) (e : BacktestingEngine) :
  alternation_inv e -> alternation_inv (after_period row e).
Proof.
  intros H. unfold after_period.
  destruct (PrimFloat.is_nan (SignalRow.price row)); [exact H|].
  exact (alternation_inv_traded row (set_current row e) H).
Qed.

Lemma alternation_inv_after_periods (l : list SignalRow.t) (e : BacktestingEngine) :
  alternation_inv e -> alternation_inv (after_periods l e).
Proof.
  revert e. induction l as [|row l IH]; intros e H; [exact H|].
  apply IH, alternation_inv_after_period, H.
Qed.

Lemma alternation_inv_started (e : BacktestingEngine) :
  alternation_inv (started e).
Proof. split; reflexivity. Qed.

Lemma alternation_inv_run (df : DataFrame) (e : BacktestingEngine) :
  alternation_inv (fst (run_backtest df e)).
Proof.
  rewrite run_backtest_eq. destruct (missing_columns df).
  - rewrite _generate_summary_state.
    apply alternation_inv_after_periods, alternation_inv_started.
  - apply alternation_inv_started.
Qed.

(** C6. In every run, over any input series and any exit policy, the trade
    records in the order they were logged go Buy, Sell, Buy, Sell, ...
    starting with a Buy: the first record is never a Sell and no two
    consecutive records have the same type. *)
Theorem trades_alternate (df : DataFrame) (e : BacktestingEngine) :
  let tys := trade_types (fst (run_backtest df e)) in
  alternating BUY tys = true
  /\ head tys <> Some SELL
  /\ forall (i : nat) (a b : trade_type),
       nth_error tys i = Some a -> nth_error tys (S i) = Some b -> a <> b.
Proof.
  intros tys. destruct (alternation_inv_run df e) as [Halt _].
  fold tys in Halt. split; [exact Halt|]. split.
  - apply alternating_head, Halt.
  - intros i a b. apply alternating_neighbours with (ty := BUY), Halt.
Qed.

Lemma trades_alternate_witness :
  trade_types (fst (run_backtest round_trip_df fresh_engine)) = [BUY; SELL]
  /\ alternating BUY (trade_types (fst (run_backtest round_trip_df fresh_engine))) = true.
Proof.
  split; [vm_compute; reflexivity|].
  exact (proj1 (trades_alternate round_trip_df fresh_engine)).
Defined.

(* ===================================================================== *)
(** * Snapshots: conservation, and one per processed period *)
(* ===================================================================== *)

Lemma current_price_traded (row : SignalRow.t) (e : BacktestingEngine) :
  current_price (traded row e) = current_price e.
Proof.
  unfold traded, bought, sold.
  repeat match goal with
         | |- context [if ?b then _ else _] => destruct b
         end; reflexivity.
Qed.

Lemma current_date_traded (row : SignalRow.t) (e : BacktestingEngine) :
  current_date (traded row e) = current_date e.
Proof.
  unfold traded, bought, sold.
  repeat match goal with
         | |- context [if ?b then _ else _] => destruct b
         end; reflexivity.
Qed.

Lemma portfolio_history_traded (row : SignalRow.t) (e : BacktestingEngine) :
  portfolio_history (db_manager (traded row e)) =
  portfolio_history (db_manager e).
Proof.
  unfold traded, bought, sold.
  repeat match goal with
         | |- context [if ?b then _ else _] => destruct b
         end; reflexivity.
Qed.

Lemma portfolio_history_marked (e : BacktestingEngine) :
  portfolio_history (db_manager (marked e)) =
  upsert (snapshot e) (portfolio_history (db_manager e)).
Proof. reflexivity. Qed.

Lemma trades_marked (e : BacktestingEngine) :
  trades (db_manager (marked e)) = trades (db_manager e).
Proof. reflexivity. Qed.

Lemma snapshot_marked (e : BacktestingEngine) : snapshot (marked e) = snapshot e.
Proof. reflexivity. Qed.

(** The snapshot is taken at the period's price, a numpy scalar, so the
    sums and products in it are the float64 ones. *)
Lemma conserved_snapshot (e : BacktestingEngine) (p : float) :
  current_price e = NpFloat p -> conserved (snapshot e).
Proof.
  intros Hp. unfold conserved, snapshot. cbn. rewrite Hp.
  rewrite py_mul_np, py_add_np. split; reflexivity.
Qed.

Lemma Forall_upsert (P : Portfolio.t -> Prop) (r : Portfolio.t)
    (l : list Portfolio.t) :
  P r -> Forall P l -> Forall P (upsert r l).
Proof.
  intros Hr Hl. unfold upsert. apply List.Forall_app. split.
  - rewrite List.Forall_forall in *. intros x Hx.
    apply filter_In in Hx as [Hx _]. exact (Hl x Hx).
  - constructor; [exact Hr | constructor].
Qed.

Lemma conserved_after_period (row : SignalRow.t) (e : BacktestingEngine) :
  Forall conserved (portfolio_history (db_manager e)) ->
  Forall conserved (portfolio_history (db_manager (after_period row e))).
Proof.
  intros H. unfold after_period.
  destruct (PrimFloat.is_nan (SignalRow.price row)); [exact H|].
  rewrite portfolio_history_marked, portfolio_history_traded.
  apply Forall_upsert; [|exact H].
  apply conserved_snapshot with (p := SignalRow.price row).
  rewrite current_price_traded. reflexivity.
Qed.

Lemma conserved_after_periods (l : list SignalRow.t) (e : BacktestingEngine) :
  Forall conserved (portfolio_history (db_manager e)) ->
  Forall conserved (portfolio_history (db_manager (after_periods l e))).
Proof.
  revert e. induction l as [|row l IH]; intros e H; [exact H|].
  apply IH, conserved_after_period, H.
Qed.

Lemma snapshot_date_price (row : SignalRow.t) (e : BacktestingEngine) :
  Portfolio.date (snapshot (traded row (set_current row e))) = SignalRow.date row
  /\ Portfolio.price (snapshot (traded row (set_current row e))) = SignalRow.price row.
Proof.
  unfold snapshot. cbn [Portfolio.date Portfolio.price].
  rewrite current_date_traded, current_price_traded. split; reflexivity.
Qed.

Lemma In_upsert (r : Portfolio.t) (l : list Portfolio.t) : In r (upsert r l).
Proof. unfold upsert. apply in_or_app. right. left. reflexivity. Qed.

(** C7. The snapshot a processed period writes is taken at the period's
    price and satisfies [total_value = cash + holdings_value] and
    [holdings_value = shares_held * price], as float64 values; and so does
    every snapshot in the store after any run. *)
Theorem snapshots_conserved :
  (forall (row : SignalRow.t) (e : BacktestingEngine),
      PrimFloat.is_nan (SignalRow.price row) = false ->
      let e' := fst (period row e) in
      conserved (snapshot e')
      /\ Portfolio.price (snapshot e') = SignalRow.price row
      /\ In (snapshot e') (portfolio_history (db_manager e')))
  /\ (forall (df : DataFrame) (e : BacktestingEngine),
        Forall conserved
          (portfolio_history (db_manager (fst (run_backtest df e))))).
Proof.
  split.
  - intros row e Hnan e'. subst e'. rewrite period_eq. unfold after_period.
    rewrite Hnan. cbn [fst]. rewrite snapshot_marked. split.
    + apply conserved_snapshot with (p := SignalRow.price row).
      rewrite current_price_traded. reflexivity.
    + split; [apply snapshot_date_price|].
      rewrite portfolio_history_marked. apply In_upsert.
  - intros df e. rewrite run_backtest_eq. destruct (missing_columns df).
    + rewrite _generate_summary_state.
      apply conserved_after_periods. constructor.
    + constructor.
Qed.

Lemma snapshots_conserved_witness :
  PrimFloat.is_nan (SignalRow.price (SignalRow.mk 4 15 0 (Some 12%float) [])) = false
  /\ conserved (snapshot (fst (period (SignalRow.mk 4 15 0 (Some 12%float) []) used_engine))).
Proof.
  split; [reflexivity|].
  pose proof (proj1 snapshots_conserved (SignalRow.mk 4 15 0 (Some 12%float) [])
                used_engine eq_refl) as H.
  exact (proj1 H).
Defined.

(** The snapshots of a run, with the default exit and with the exit of
    the Bollinger Bands strategy. *)
Example round_trip_snapshots :
  map Portfolio.total_value
      (portfolio_history (db_manager (fst (run_backtest round_trip_df fresh_engine))))
  = [100000%float; 150000%float]
  /\ map Portfolio.total_value
        (portfolio_history
           (db_manager
              (fst (run_backtest round_trip_df
                      (__init__ (PyFloat 100000) empty_db
                                (Some BollingerBandsStrategy))))))
     = [100000%float; 150000%float].
Proof. split; vm_compute; reflexivity. Qed.

(** ** Skipped and processed periods *)







(* ===================================================================== *)
(** * The run summary *)
(* ===================================================================== *)

Lemma len_app {A : Type} (l : list A) (x : A) : len (l ++ [x]) = len l + 1.
Proof. unfold len. rewrite length_app. cbn. lia. Qed.

Lemma count_type_app (ty : trade_type) (l : list Trade.t) (t : Trade.t) :
  count_type ty (l ++ [t]) =
  count_type ty l + (if trade_type_eqb (Trade.trade_type t) ty then 1 else 0).
Proof.
  unfold count_type, len. rewrite List.filter_app, length_app. cbn [List.filter].
  destruct (trade_type_eqb (Trade.trade_type t) ty); cbn [length]; lia.
Qed.

Lemma count_types (l : list Trade.t) :
  len l = count_type BUY l + count_type SELL l.
Proof.
  unfold count_type, len. induction l as [|t l IH]; [reflexivity|].
  cbn [List.filter length]. destruct (Trade.trade_type t); cbn [trade_type_eqb length]; lia.
Qed.

Lemma counters_inv_traded (row : SignalRow.t) (e : BacktestingEngine) :
  counters_inv e -> counters_inv (traded row e).
Proof.
  intros Hinv. pose proof Hinv as [Hn Hw]. unfold traded.
  repeat match goal with
         | |- context [if ?b then _ else _] => destruct b
         end; try exact Hinv.
  - unfold counters_inv, sold.
    destruct (py_gtb (current_price e) (entry_price e)); cbn;
      rewrite len_app, count_type_app; cbn; lia.
  - unfold counters_inv, bought. cbn.
    rewrite len_app, count_type_app. cbn. lia.
Qed.

Lemma counters_inv_after_periods (l : list SignalRow.t) (e : BacktestingEngine) :
  counters_inv e -> counters_inv (after_periods l e).
Proof.
  revert e. induction l as [|row l IH]; intros e H; [exact H|].
  apply IH. unfold after_period.
  destruct (PrimFloat.is_nan (SignalRow.price row)); [exact H|].
  exact (counters_inv_traded row (set_current row e) H).
Qed.

Lemma counters_inv_started (e : BacktestingEngine) : counters_inv (started e).
Proof. split; reflexivity. Qed.

(** The summary, when [_generate_summary] returns one. *)
Lemma _generate_summary_ok (e : BacktestingEngine) (s : Summary.t) :
  snd (_generate_summary e) = Ok s ->
  Summary.total_trades s = trades_executed e
  /\ Summary.winning_trades s = winning_trades e
  /\ Summary.losing_trades s = losing_trades e
  /\ Summary.win_rate s =
       (if 0 <? trades_executed e
        then py_mul (PyFloat (PrimFloat.div (float_of_Z (winning_trades e))
                                (float_of_Z (trades_executed e))))
                    (PyInt 100)
        else PyInt 0).
Proof.
  unfold _generate_summary, bind, gets, lift, ret. cbn beta iota.
  destruct (py_div (py_sub _ _) _); [|discriminate].
  destruct (Z.ltb_spec 0 (trades_executed e)) as [Hpos|Hzero].
  - rewrite Z.max_l by lia. rewrite py_div_ints by lia.
    cbn. intros [= <-]. cbn. repeat split; reflexivity.
  - cbn. intros [= <-]. cbn. repeat split; reflexivity.
Qed.

(** C9. The win rate of the run summary is the number of winning Sells
    divided by the number of all trade records of the run, Buys and Sells
    counted alike, times 100, and 0 when there is no trade. *)
Theorem summary_win_rate (df : DataFrame) (e : BacktestingEngine) (s : Summary.t) :
  snd (run_backtest df e) = Ok s ->
  let logged := trades (db_manager (fst (run_backtest df e))) in
  Summary.total_trades s = len logged
  /\ len logged = count_type BUY logged + count_type SELL logged
  /\ Summary.winning_trades s + Summary.losing_trades s = count_type SELL logged
  /\ Summary.win_rate s =
       (if 0 <? len logged
        then py_mul (PyFloat (PrimFloat.div (float_of_Z (Summary.winning_trades s))
                                (float_of_Z (len logged))))
                    (PyInt 100)
        else PyInt 0).
Proof.
  rewrite run_backtest_eq. destruct (missing_columns df); [|discriminate].
  intros Hs logged. subst logged. rewrite _generate_summary_state.
  set (e' := after_periods (tail (rows df)) (started e)) in *.
  destruct (counters_inv_after_periods (tail (rows df)) (started e)
              (counters_inv_started e)) as [Hn Hw].
  fold e' in Hn, Hw.
  apply _generate_summary_ok in Hs as (Ht & Hwin & Hlose & Hrate).
  rewrite Ht, Hwin, Hlose, Hrate, <- Hn.
  split; [reflexivity|]. split; [rewrite Hn; apply count_types|].
  split; [exact Hw | reflexivity].
Qed.

(** One winning round trip, one Buy and one Sell: the summary reports 50%. *)
Lemma summary_win_rate_witness :
  exists s : Summary.t,
    snd (run_backtest round_trip_df fresh_engine) = Ok s
    /\ map Trade.trade_type
         (trades (db_manager (fst (run_backtest round_trip_df fresh_engine))))
       = [BUY; SELL]
    /\ Summary.winning_trades s = 1
    /\ Summary.total_trades s = 2
    /\ Summary.win_rate s = PyFloat 50.
Proof.
  destruct (snd (run_backtest round_trip_df fresh_engine)) as [s|err] eqn:Hs;
    [|vm_compute in Hs; discriminate].
  exists s. split; [reflexivity|].
  pose proof (summary_win_rate round_trip_df fresh_engine s Hs) as (Ht & _ & _ & Hrate).
  split; [vm_compute; reflexivity|].
  assert (Hw : Summary.winning_trades s = 1).
  { vm_compute in Hs. injection Hs as <-. reflexivity. }
  split; [exact Hw|]. split; [rewrite Ht; reflexivity|].
  rewrite Hrate, Hw. vm_compute. reflexivity.
Defined.

(* ===================================================================== *)
(** * Nothing to invest *)
(* ===================================================================== *)


Lemma py_gtb_zero : py_gtb (PyFloat 0) (PyInt 0) = false.
Proof. reflexivity. Qed.




Lemma initial_capital_after_periods (l : list SignalRow.t) (e : BacktestingEngine) :
  initial_capital (after_periods l e) = initial_capital e.
Proof.
  revert e. induction l as [|row l IH]; intros e; [reflexivity|].
  cbn [after_periods fold_left]. fold (after_periods l (after_period row e)).
  rewrite IH. unfold after_period, marked, traded, bought, sold.
  repeat match goal with
         | |- context [if ?b then _ else _] => destruct b
         end; reflexivity.
Qed.







(* ===================================================================== *)
(** * Invalid input *)
(* ===================================================================== *)

(** C3, as the code has it.  [run_backtest] raises [ValueError] exactly
    when the series lacks a [price] or a [signal] column; it does so after
    it has cleared the store and reset the portfolio, and writes nothing
    after that. *)
Theorem run_backtest_invalid_input (df : DataFrame) (e : BacktestingEngine) :
  (snd (run_backtest df e) = Raise ValueError <->
   has_column "price" df = false \/ has_column "signal" df = false)
  /\ (snd (run_backtest df e) = Raise ValueError ->
      fst (run_backtest df e) = reset_portfolio (set_db_manager (clear_data (db_manager e)) e)
      /\ db_manager (fst (run_backtest df e)) = mkDB [] [] []
      /\ cash (fst (run_backtest df e)) = initial_capital e
      /\ position_shares (fst (run_backtest df e)) = PyFloat 0).
Proof.
  rewrite run_backtest_eq.
  pose proof (missing_columns_nil df) as Hnil.
  destruct (missing_columns df) as [|c cs].
  - split.
    + split.
      * intros H. apply _generate_summary_raises in H. discriminate.
      * destruct Hnil as [Hnil _]. destruct (Hnil eq_refl) as [Hp Hs].
        rewrite Hp, Hs. intros [H|H]; discriminate.
    + intros H. apply _generate_summary_raises in H. discriminate.
  - split.
    + split; [|reflexivity]. intros _.
      destruct (has_column "price" df) eqn:Hp; [|left; reflexivity].
      destruct (has_column "signal" df) eqn:Hs; [|right; reflexivity].
      destruct Hnil as [_ Hnil]. discriminate (Hnil (conj eq_refl eq_refl)).
    + intros _. repeat split.
Qed.

Lemma run_backtest_invalid_input_witness :
  has_column "signal" no_signal_df = false
  /\ snd (run_backtest no_signal_df used_engine) = Raise ValueError
  /\ db_manager (fst (run_backtest no_signal_df used_engine)) = mkDB [] [] [].
Proof.
  split; [reflexivity|].
  pose proof (run_backtest_invalid_input no_signal_df used_engine) as [Hiff Hstate].
  assert (H : snd (run_backtest no_signal_df used_engine) = Raise ValueError).
  { apply Hiff. right. reflexivity. }
  split; [exact H|]. apply (Hstate H).
Defined.

(** A run that raises [ValueError] has cleared the trades of the run before
    and reset the cash; and a series with no row, or with no priced row,
    raises nothing. *)
Lemma invalid_input_mutates :
  (snd (run_backtest no_signal_df used_engine) = Raise ValueError
   /\ length (trades (db_manager used_engine)) = 2%nat
   /\ length (portfolio_history (db_manager used_engine)) = 2%nat
   /\ db_manager (fst (run_backtest no_signal_df used_engine)) = mkDB [] [] []
   /\ cash used_engine = NpFloat 150000
   /\ cash (fst (run_backtest no_signal_df used_engine)) = PyFloat 100000)
  /\ (exists s : Summary.t, snd (run_backtest no_rows_df fresh_engine) = Ok s)
  /\ (exists s : Summary.t, snd (run_backtest all_nan_df fresh_engine) = Ok s).
Proof.
  split; [repeat split; vm_compute; reflexivity|].
  split; eexists; vm_compute; reflexivity.
Qed.

(* ===================================================================== *)
(** * The metrics engine: pairing Sells with Buys *)
(* ===================================================================== *)

Section OrderBy.

Context {A : Type} (key : A -> date).

Lemma In_insert_by (x y : A) (l : list A) :
  In y (insert_by key x l) <-> y = x \/ In y l.
Proof.
  induction l as [|z l IH]; cbn [insert_by].
  - cbn. intuition.
  - destruct (key x <=? key z); cbn [In]; [intuition|].
    rewrite IH. intuition.
Qed.

Lemma In_order_by (y : A) (l : list A) : In y (order_by key l) <-> In y l.
Proof.
  unfold order_by. induction l as [|x l IH]; [reflexivity|].
  cbn [fold_right In]. rewrite In_insert_by, IH. intuition.
Qed.

Lemma insert_by_sorted (x : A) (l : list A) :
  StronglySorted (key_le key) l -> StronglySorted (key_le key) (insert_by key x l).
Proof.
  induction 1 as [|z l Hl IH Hz]; cbn [insert_by].
  - repeat constructor.
  - destruct (Z.leb_spec (key x) (key z)) as [Hle|Hgt].
    + constructor; [constructor; assumption|].
      constructor; [exact Hle|].
      rewrite List.Forall_forall in *. intros y Hy.
      unfold key_le in *. specialize (Hz y Hy). lia.
    + constructor; [exact IH|].
      rewrite List.Forall_forall in *. intros y Hy.
      apply In_insert_by in Hy as [->|Hy]; [unfold key_le; lia|].
      exact (Hz y Hy).
Qed.

(** [ORDER BY] returns its rows in date order. *)
Lemma order_by_sorted (l : list A) : StronglySorted (key_le key) (order_by key l).
Proof.
  unfold order_by. induction l as [|x l IH]; [constructor|].
  cbn [fold_right]. apply insert_by_sorted, IH.
Qed.


(** In a sorted list no element is later than the last. *)
Lemma sorted_last (l : list A) (b : A) :
  StronglySorted (key_le key) l -> last l = Some b ->
  In b l /\ forall x : A, In x l -> key x <= key b.
Proof.
  induction 1 as [|z l Hl IH Hz]; [discriminate|].
  destruct l as [|z' l'].
  - cbn. intros [= ->]. split; [left; reflexivity|].
    intros x [->|[]]. lia.
  - intros Hlast. change (last (z' :: l') = Some b) in Hlast.
    destruct (IH Hlast) as [Hin Hmax]. split; [right; exact Hin|].
    intros x [->|Hx]; [|exact (Hmax x Hx)].
    rewrite List.Forall_forall in Hz. exact (Hz b Hin).
Qed.

End OrderBy.









(* ===================================================================== *)
(** * The metrics engine: the Sharpe ratio across analyses *)
(* ===================================================================== *)

Example hold_db_history :
  map Trade.trade_type (trades hold_db) = [BUY]
  /\ map Portfolio.total_value (get_portfolio_history hold_db)
     = [100%float; 110%float; 130%float].
Proof. split; vm_compute; reflexivity. Qed.

(** C1 at [hold_db]: three snapshots, two returns, positive volatility.
    The first analysis of a new analyzer returns, whatever [x ** y] is, the
    Sharpe ratio [(0 - 0.02*100) / volatility], a negative number, where
    the specification has [(annualized return - 0.02*100) / volatility], a
    positive one: the annualized return is read from the metrics of the
    analysis before, and there is none. *)
Theorem first_analysis_sharpe :
  exists vol ann : float,
    (forall pow : float -> float -> float,
        let r := snd (analyze_performance pow default_rate (new_analyzer hold_db)) in
        metric r "annualized_volatility" = Some (NpFloat vol)
        /\ metric r "sharpe_ratio"
           = Some (NpFloat (PrimFloat.div (PrimFloat.sub 0 (PrimFloat.mul 0.02 100)) vol)))
    /\ PrimFloat.ltb 0 vol = true
    /\ PrimFloat.ltb (PrimFloat.div (PrimFloat.sub 0 (PrimFloat.mul 0.02 100)) vol) 0 = true
    /\ metric (snd first_analysis) "annualized_return" = Some (NpFloat ann)
    /\ PrimFloat.ltb 0 (PrimFloat.div (PrimFloat.sub ann (PrimFloat.mul 0.02 100)) vol) = true.
Proof.
  do 2 eexists.
  split; [intros pow r; subst r; split; vm_compute; reflexivity|].
  split; [vm_compute; reflexivity|]. split; [vm_compute; reflexivity|].
  split; vm_compute; reflexivity.
Qed.

(** C2 at [hold_db]: the stored history is the same before the first and
    before the second analysis, and the two analyses return different
    Sharpe ratios, a negative one and then a positive one; the second is
    [(annualized return - 0.02*100) / volatility]. *)
Theorem second_analysis_differs :
  portfolio_history (Analyzer.db_manager (fst first_analysis)) = portfolio_history hold_db
  /\ trades (Analyzer.db_manager (fst first_analysis)) = trades hold_db
  /\ metric (snd first_analysis) "sharpe_ratio"
     <> metric (snd second_analysis) "sharpe_ratio"
  /\ exists s1 s2 vol ann : float,
       metric (snd first_analysis) "sharpe_ratio" = Some (NpFloat s1)
       /\ metric (snd second_analysis) "sharpe_ratio" = Some (NpFloat s2)
       /\ PrimFloat.ltb s1 0 = true /\ PrimFloat.ltb 0 s2 = true
       /\ metric (snd second_analysis) "annualized_volatility" = Some (NpFloat vol)
       /\ metric (snd second_analysis) "annualized_return" = Some (NpFloat ann)
       /\ s2 = PrimFloat.div (PrimFloat.sub ann (PrimFloat.mul 0.02 100)) vol.
Proof.
  split; [vm_compute; reflexivity|]. split; [vm_compute; reflexivity|].
  split.
  - intros H.
    apply (f_equal (fun o : option pyval =>
                      match o with
                      | Some v => PrimFloat.ltb (to_float v) 0
                      | None => false
                      end)) in H.
    vm_compute in H. discriminate.
  - do 4 eexists.
    split; [vm_compute; reflexivity|]. split; [vm_compute; reflexivity|].
    split; [vm_compute; reflexivity|]. split; [vm_compute; reflexivity|].
    split; [vm_compute; reflexivity|]. split; vm_compute; reflexivity.
Qed.

(* ===================================================================== *)
(** * The metrics engine: what an analysis returns *)
(* ===================================================================== *)

Lemma dict_merge_lookup (a b : dict) (k : string) :
  dict_merge a b !! k = match b !! k with Some v => Some v | None => a !! k end.
Proof.
  unfold dict_merge. rewrite lookup_union.
  destruct (b !! k), (a !! k); reflexivity.
Qed.

(** The four metric methods read the analyzer and leave it as it is. *)
Lemma _calculate_basic_metrics_state (pow : float -> float -> float) (s : Analyzer.t) :
  fst (_calculate_basic_metrics pow s) = s.
Proof.
  unfold _calculate_basic_metrics, bind, gets, lift, ret. cbn beta iota.
  destruct (iloc_first _); [|reflexivity].
  destruct (iloc_last _); [|reflexivity].
  destruct (1 <? _); [|reflexivity].
  destruct (py_div _ _); reflexivity.
Qed.

Lemma _calculate_risk_metrics_eq (rf : pyval) (s : Analyzer.t) :
  exists d : dict,
    _calculate_risk_metrics rf s = (s, Ok d)
    /\ d !! "sharpe_ratio" =
         Some (sharpe_ratio_of (Analyzer.metrics s) rf (total_values s))
    /\ ((exists v1 v2 : pyval,
           d = list_to_map [("sharpe_ratio", v1);
                            ("annualized_volatility", v2)]%string)
        \/ (exists v1 v2 v3 : pyval,
              d = list_to_map [("annualized_volatility", v1);
                               ("sharpe_ratio", v2);
                               ("sortino_ratio", v3)]%string)).
Proof.
  unfold _calculate_risk_metrics, sharpe_ratio_of, bind, gets, lift, ret.
  cbn beta iota zeta. fold (daily_returns_of (total_values s)).
  set (daily_returns := daily_returns_of (total_values s)).
  destruct (len daily_returns <? 2).
  { eexists. split; [reflexivity|]. split; [vm_compute; reflexivity|].
    left. do 2 eexists. reflexivity. }
  fold (annualized_volatility_of daily_returns).
  set (vol := annualized_volatility_of daily_returns).
  change (py_gtb (NpFloat vol) (PyInt 0)) with (PrimFloat.ltb 0 vol).
  set (excess := py_sub _ _).
  set (negative_returns := List.filter _ daily_returns).
  assert (Hsortino : exists v : pyval,
    (if 0 <? len negative_returns
     then
       if py_gtb (NpFloat (annualized_volatility_of negative_returns)) (PyInt 0)
       then lift (py_div excess (NpFloat (annualized_volatility_of negative_returns)))
       else ret (PyInt 0)
     else
       ret (if py_gtb (dict_get (Analyzer.metrics s) "annualized_return" (PyInt 0))
                      (py_mul rf (PyInt 100))
            then PyFloat infinity else PyInt 0)) s = (s, Ok v)).
  { destruct (0 <? len negative_returns); [|eexists; reflexivity].
    destruct (py_gtb _ _); [|eexists; reflexivity].
    unfold lift. rewrite py_div_np. eexists. reflexivity. }
  destruct Hsortino as [sortino Hsortino].
  unfold annualized_volatility_of in Hsortino. unfold lift, ret in Hsortino.
  destruct (PrimFloat.ltb 0 vol).
  - rewrite py_div_np. unfold lift, ret. rewrite Hsortino.
    eexists. split; [reflexivity|].
    split; [cbn [list_to_map foldr]; simplify_map_eq; reflexivity|].
    right. do 3 eexists. reflexivity.
  - unfold lift, ret. rewrite Hsortino.
    eexists. split; [reflexivity|].
    split; [cbn [list_to_map foldr]; simplify_map_eq; reflexivity|].
    right. do 3 eexists. reflexivity.
Qed.

Lemma _calculate_trade_metrics_state (s : Analyzer.t) :
  fst (_calculate_trade_metrics s) = s.
Proof.
  unfold _calculate_trade_metrics, bind, gets, lift, ret. cbn beta iota zeta.
  destruct (length (Analyzer.trades_df s) =? 0)%nat; [reflexivity|].
  destruct (length (trade_pnl_of _ _) =? 0)%nat; [reflexivity|].
  destruct (0 <? len (trade_pnl_of _ _)); [|reflexivity].
  destruct (py_div _ _); reflexivity.
Qed.


Lemma last_cons_defined {A : Type} (x : A) (l : list A) :
  exists y : A, last (x :: l) = Some y.
Proof.
  revert x. induction l as [|z l IH]; intros x; [exists x; reflexivity|].
  exact (IH z).
Qed.

Lemma _calculate_drawdown_metrics_eq (s : Analyzer.t) :
  Analyzer.portfolio_df s <> [] ->
  exists v1 v2 v3 : pyval,
    _calculate_drawdown_metrics s =
    (s, Ok (list_to_map [("max_drawdown", v1); ("current_drawdown", v2);
                         ("avg_drawdown", v3)]%string)).
Proof.
  intros Hne. unfold _calculate_drawdown_metrics, bind, gets, lift, ret.
  cbn beta iota zeta. unfold total_values.
  destruct (Analyzer.portfolio_df s) as [|r l]; [contradiction|].
  cbn [map expanding_max combine]. unfold iloc_last.
  destruct (last_cons_defined
              (PrimFloat.mul
                 (PrimFloat.div
                    (PrimFloat.sub (Portfolio.total_value r) (Portfolio.total_value r))
                    (Portfolio.total_value r)) 100)
              (map (fun vp : float * float =>
                      PrimFloat.mul
                        (PrimFloat.div (PrimFloat.sub (fst vp) (snd vp)) (snd vp)) 100)
                   (combine (map Portfolio.total_value l)
                      (expanding_max_from (Portfolio.total_value r)
                         (map Portfolio.total_value l))))) as [y Hy].
  cbn [fst snd] in *. rewrite Hy. do 3 eexists. reflexivity.
Qed.

Lemma _calculate_basic_metrics_eq (pow : float -> float -> float) (s : Analyzer.t) :
  Analyzer.portfolio_df s <> [] ->
  exists v1 v2 v3 v4 v5 v6 v7 : pyval,
    _calculate_basic_metrics pow s =
    (s, Ok (list_to_map
              [("initial_capital", v1); ("final_portfolio_value", v2);
               ("total_return", v3); ("annualized_return", v4);
               ("total_days", v5); ("avg_daily_return", v6);
               ("daily_volatility", v7)]%string)).
Proof.
  intros Hne. unfold _calculate_basic_metrics, bind, gets, lift, ret.
  cbn beta iota zeta. unfold total_values, iloc_last.
  destruct (Analyzer.portfolio_df s) as [|r l] eqn:Hdf; [contradiction|].
  cbn [map iloc_first].
  destruct (last_cons_defined (Portfolio.total_value r)
              (map Portfolio.total_value l)) as [y Hy].
  rewrite Hy.
  destruct (Z.ltb_spec 1 (len (r :: l))) as [Hdays|Hdays].
  - rewrite py_div_ints by lia. do 7 eexists. reflexivity.
  - do 7 eexists. reflexivity.
Qed.

(** The trade metrics are a dictionary over the nine trade keys. *)
Lemma _calculate_trade_metrics_eq (s : Analyzer.t) :
  exists v1 v2 v3 v4 v5 v6 v7 v8 v9 : pyval,
    _calculate_trade_metrics s =
    (s, Ok (list_to_map
              [("total_trades", v1); ("winning_trades", v2);
               ("losing_trades", v3); ("win_rate", v4); ("avg_win", v5);
               ("avg_loss", v6); ("profit_factor", v7); ("largest_win", v8);
               ("largest_loss", v9)]%string)).
Proof.
  unfold _calculate_trade_metrics, bind, gets, lift, ret. cbn beta iota zeta.
  destruct (length (Analyzer.trades_df s) =? 0)%nat;
    [do 9 eexists; reflexivity|].
  set (pnl := trade_pnl_of _ _).
  destruct (length pnl =? 0)%nat; [do 9 eexists; reflexivity|].
  destruct (Z.ltb_spec 0 (len pnl)) as [Hpos|Hzero].
  - rewrite py_div_ints by lia. do 9 eexists. reflexivity.
  - do 9 eexists. reflexivity.
Qed.

(** The entries of the combined dictionary: the four dictionaries have no
    key in common. *)
Lemma combined_metrics (b1 b2 b3 b4 b5 b6 b7 : pyval) (r : dict)
    (t1 t2 t3 t4 t5 t6 t7 t8 t9 d1 d2 d3 : pyval) :
  (exists v1 v2 : pyval,
      r = list_to_map [("sharpe_ratio", v1); ("annualized_volatility", v2)]%string)
  \/ (exists v1 v2 v3 : pyval,
        r = list_to_map [("annualized_volatility", v1); ("sharpe_ratio", v2);
                         ("sortino_ratio", v3)]%string) ->
  let b : dict :=
    list_to_map
      [("initial_capital", b1); ("final_portfolio_value", b2);
       ("total_return", b3); ("annualized_return", b4); ("total_days", b5);
       ("avg_daily_return", b6); ("daily_volatility", b7)]%string in
  let t : dict :=
    list_to_map
      [("total_trades", t1); ("winning_trades", t2); ("losing_trades", t3);
       ("win_rate", t4); ("avg_win", t5); ("avg_loss", t6);
       ("profit_factor", t7); ("largest_win", t8); ("largest_loss", t9)]%string in
  let d : dict :=
    list_to_map [("max_drawdown", d1); ("current_drawdown", d2);
                 ("avg_drawdown", d3)]%string in
  let m := dict_merge (dict_merge (dict_merge b r) t) d in
  (m !! "initial_capital" = Some b1 /\ m !! "final_portfolio_value" = Some b2
   /\ m !! "total_return" = Some b3 /\ m !! "max_drawdown" = Some d1)
  /\ m !! "annualized_return" = Some b4
  /\ m !! "sharpe_ratio" = r !! "sharpe_ratio"
  /\ (m !! "total_trades" = Some t1 /\ m !! "winning_trades" = Some t2
      /\ m !! "losing_trades" = Some t3 /\ m !! "win_rate" = Some t4)
  /\ (m !! "avg_win" = Some t5 /\ m !! "avg_loss" = Some t6
      /\ m !! "profit_factor" = Some t7 /\ m !! "largest_win" = Some t8
      /\ m !! "largest_loss" = Some t9).
Proof.
  intros [(v1 & v2 & ->)|(v1 & v2 & v3 & ->)]; intros b t d m;
    subst b t d m; repeat split; vm_compute; reflexivity.
Qed.

Lemma order_by_nil {A : Type} (key : A -> date) (l : list A) :
  order_by key l = [] -> l = [].
Proof.
  destruct l as [|x l]; [reflexivity|]. intros H. exfalso.
  assert (Hin : In x (order_by key (x :: l))) by (apply In_order_by; left; reflexivity).
  rewrite H in Hin. destruct Hin.
Qed.

(** An analysis over a store with at least one snapshot returns its
    metrics: it stores them in the analyzer, adds a row to
    [performance_metrics] and leaves the two histories as they were.  Its
    Sharpe ratio is computed from the annualized return found in the
    analyzer's metrics when it starts; its trade entries are those of
    [_calculate_trade_metrics]. *)
Lemma analyze_performance_run (pow : float -> float -> float) (rf : pyval)
    (a : Analyzer.t) :
  portfolio_history (Analyzer.db_manager a) <> [] ->
  exists (m t : dict),
    snd (analyze_performance pow rf a) = Ok m
    /\ Analyzer.metrics (fst (analyze_performance pow rf a)) = m
    /\ trades (Analyzer.db_manager (fst (analyze_performance pow rf a))) =
         trades (Analyzer.db_manager a)
    /\ portfolio_history (Analyzer.db_manager (fst (analyze_performance pow rf a))) =
         portfolio_history (Analyzer.db_manager a)
    /\ m !! "sharpe_ratio" =
         Some (sharpe_ratio_of (Analyzer.metrics a) rf
                 (map Portfolio.total_value
                      (get_portfolio_history (Analyzer.db_manager a))))
    /\ _calculate_trade_metrics (loaded a) = (loaded a, Ok t)
    /\ Forall (fun k => m !! k = t !! k) trade_keys.
Proof.
  intros Hne.
  assert (Hdf : Analyzer.portfolio_df (loaded a) <> []).
  { cbn. intros H. apply order_by_nil in H. contradiction. }
  destruct (_calculate_basic_metrics_eq pow (loaded a) Hdf)
    as (b1 & b2 & b3 & b4 & b5 & b6 & b7 & Hb).
  destruct (_calculate_risk_metrics_eq rf (loaded a)) as (r & Hr & Hsharpe & Hshape).
  destruct (_calculate_trade_metrics_eq (loaded a))
    as (t1 & t2 & t3 & t4 & t5 & t6 & t7 & t8 & t9 & Ht).
  destruct (_calculate_drawdown_metrics_eq (loaded a) Hdf) as (d1 & d2 & d3 & Hd).
  destruct (combined_metrics b1 b2 b3 b4 b5 b6 b7 r t1 t2 t3 t4 t5 t6 t7 t8 t9
              d1 d2 d3 Hshape)
    as ((Hk1 & Hk2 & Hk3 & Hk4) & _ & Hks & (Ht1 & Ht2 & Ht3 & Ht4)
        & (Ht5 & Ht6 & Ht7 & Ht8 & Ht9)).
  unfold analyze_performance, bind, modify, gets, raise, ret. cbn beta iota.
  repeat match goal with
         | |- context [set_trades_df ?x (set_portfolio_df ?y a)] =>
             change (set_trades_df x (set_portfolio_df y a)) with (loaded a)
         end.
  destruct (Analyzer.portfolio_df (loaded a)) as [|row rows_] eqn:Hrows;
    [contradiction|].
  cbn [length Nat.eqb]. rewrite Hb, Hr, Ht, Hd.
  unfold on_db, log_performance_metrics, bind, lift, modify, dict_getitem.
  cbn [Analyzer.db_manager set_metrics].
  repeat match goal with
         | H : ?m !! ?k = Some _ |- context [?m !! ?k] => rewrite H
         end.
  cbn beta iota. eexists _, _. split; [reflexivity|]. split; [reflexivity|].
  split; [reflexivity|]. split; [reflexivity|].
  split; [rewrite Hks; exact Hsharpe|]. split; [reflexivity|].
  unfold trade_keys.
  repeat (constructor;
          [match goal with
           | H : ?x = Some _ |- ?x = _ => rewrite H; reflexivity
           end|]).
  constructor.
Qed.






(* ===================================================================== *)
(** * The Sharpe ratio of an analysis, in general *)
(* ===================================================================== *)

(** Whatever the history and whatever [pow]: the first analysis of a new
    analyzer computes its Sharpe ratio with 0 where the annualized return
    should be. *)
Lemma new_analyzer_sharpe (pow : float -> float -> float) (rf : pyval)
    (db : DatabaseManager) :
  portfolio_history db <> [] ->
  metric (snd (analyze_performance pow rf (new_analyzer db))) "sharpe_ratio" =
  Some (let daily_returns :=
          daily_returns_of (map Portfolio.total_value (get_portfolio_history db)) in
        if len daily_returns <? 2 then PyInt 0
        else
          let vol := annualized_volatility_of daily_returns in
          if PrimFloat.ltb 0 vol
          then NpFloat (PrimFloat.div
                          (to_float (py_sub (PyInt 0) (py_mul rf (PyInt 100))))
                          vol)
          else PyInt 0).
Proof.
  intros Hne.
  destruct (analyze_performance_run pow rf (new_analyzer db) Hne)
    as (m & t & Hm & _ & _ & _ & Hsharpe & _).
  rewrite Hm. cbn [metric]. rewrite Hsharpe. reflexivity.
Qed.

(** The analyses after the first read the annualized return the analysis
    before left in the analyzer. *)
Lemma later_analysis_sharpe (pow : float -> float -> float) (rf : pyval)
    (a : Analyzer.t) :
  portfolio_history (Analyzer.db_manager a) <> [] ->
  metric (snd (analyze_performance pow rf a)) "sharpe_ratio" =
  Some (sharpe_ratio_of (Analyzer.metrics a) rf
          (map Portfolio.total_value
               (get_portfolio_history (Analyzer.db_manager a)))).
Proof.
  intros Hne.
  destruct (analyze_performance_run pow rf a Hne)
    as (m & t & Hm & _ & _ & _ & Hsharpe & _).
  rewrite Hm. exact Hsharpe.
Qed.

(** From the second analysis on the results repeat. *)
Example third_analysis_repeats :
  map (metric (snd third_analysis)) (metric_keys ++ trade_keys)
  = map (metric (snd second_analysis)) (metric_keys ++ trade_keys)
  /\ metric (snd third_analysis) "sharpe_ratio"
     = metric (snd second_analysis) "sharpe_ratio".
Proof. split; vm_compute; reflexivity. Qed.

(* ===================================================================== *)
(** * The scenarios of the specification *)
(* ===================================================================== *)

(** Buy at 10 on the second day, 10000 shares, no cash left; the third day
    is marked at 12 and nothing is sold. *)
Example scenario_buy_and_hold :
  trades (db_manager (fst (run_backtest scenario_df fresh_engine)))
  = [Trade.mk 2 BUY 10 10000 (-100000) 100000]
  /\ portfolio_history (db_manager (fst (run_backtest scenario_df fresh_engine)))
     = [Portfolio.mk 2 0 100000 100000 10000 10;
        Portfolio.mk 3 0 120000 120000 10000 12].
Proof. split; vm_compute; reflexivity. Qed.

(** No Buy signal: no trade, win rate 0, and the final value is the
    initial capital. *)
Example scenario_no_buy :
  trades (db_manager (fst (run_backtest no_buy_df fresh_engine))) = []
  /\ exists s : Summary.t,
       snd (run_backtest no_buy_df fresh_engine) = Ok s
       /\ Summary.total_trades s = 0
       /\ to_float (Summary.win_rate s) = 0%float
       /\ to_float (Summary.final_portfolio_value s) = 100000%float.
Proof.
  split; [vm_compute; reflexivity|].
  eexists. split; [vm_compute; reflexivity|]. repeat split.
Qed.

(** One round trip, 100 shares from 10 to 15: P&L 500, win rate 100,
    profit factor infinite. *)
Example scenario_round_trip :
  trade_pnl_of (List.filter is_buy (get_trades hundred_shares_db))
               (List.filter is_sell (get_trades hundred_shares_db))
  = [500%float]
  /\ map (metric (snd (analyze_performance pow_whole default_rate
                         (new_analyzer hundred_shares_db))))
         ["total_trades"; "win_rate"; "profit_factor"]%string
     = [Some (PyInt 1); Some (PyFloat 100); Some (PyFloat infinity)].
Proof. split; vm_compute; reflexivity. Qed.

(* ===================================================================== *)
(** * Comparisons of float64 values *)
(* ===================================================================== *)

(** The comparisons of [PrimFloat] are those of the IEEE 754 model
    [SpecFloat]; these are the facts about them the code relies on. *)

Lemma SFcompare_nan_l (y : spec_float) : SFcompare S754_nan y = None.
Proof. reflexivity. Qed.

Lemma SFcompare_nan_r (x : spec_float) : SFcompare x S754_nan = None.
Proof. destruct x; reflexivity. Qed.

Lemma compare_cont_Eq_refl (m : positive) : Pos.compare_cont Eq m m = Eq.
Proof. apply Pos.compare_cont_refl. Qed.

Lemma SFcompare_refl (x : spec_float) :
  x <> S754_nan -> SFcompare x x = Some Eq.
Proof.
  destruct x as [s|s| |s m e]; intros Hx; try contradiction; cbn.
  - reflexivity.
  - destruct s; reflexivity.
  - destruct s; rewrite Z.compare_refl, compare_cont_Eq_refl; reflexivity.
Qed.

Lemma SFcompare_antisym (x y : spec_float) :
  SFcompare y x = match SFcompare x y with
                  | Some c => Some (CompOpp c)
                  | None => None
                  end.
Proof.
  destruct x as [sx|sx| |sx mx ex], y as [sy|sy| |sy my ey]; cbn;
    try reflexivity;
    try (destruct sx; reflexivity); try (destruct sy; reflexivity);
    try (destruct sx, sy; reflexivity).
  destruct sx, sy; try reflexivity;
    rewrite (Z.compare_antisym ex ey);
    destruct (ex ?= ey)%Z; cbn; try reflexivity;
    fold (Pos.compare my mx); fold (Pos.compare mx my);
    rewrite (Pos.compare_antisym mx my);
    destruct (mx ?= my)%positive; reflexivity.
Qed.

Lemma is_nan_spec (x : float) :
  PrimFloat.is_nan x = true <-> Prim2SF x = S754_nan.
Proof.
  unfold PrimFloat.is_nan. rewrite FloatAxioms.eqb_spec. unfold SFeqb. split.
  - intros H. destruct (Prim2SF x) eqn:Hx; try reflexivity;
      rewrite SFcompare_refl in H by discriminate; discriminate.
  - intros ->. reflexivity.
Qed.

(** A NaN compares false with everything. *)
Lemma ltb_nan_l (x y : float) :
  PrimFloat.is_nan x = true -> PrimFloat.ltb x y = false.
Proof.
  intros H. apply is_nan_spec in H. rewrite FloatAxioms.ltb_spec, H. reflexivity.
Qed.

Lemma ltb_nan_r (x y : float) :
  PrimFloat.is_nan y = true -> PrimFloat.ltb x y = false.
Proof.
  intros H. apply is_nan_spec in H. rewrite FloatAxioms.ltb_spec, H.
  unfold SFltb. rewrite SFcompare_nan_r. reflexivity.
Qed.

Lemma leb_nan_l (x y : float) :
  PrimFloat.is_nan x = true -> PrimFloat.leb x y = false.
Proof.
  intros H. apply is_nan_spec in H. rewrite FloatAxioms.leb_spec, H. reflexivity.
Qed.

Lemma leb_nan_r (x y : float) :
  PrimFloat.is_nan y = true -> PrimFloat.leb x y = false.
Proof.
  intros H. apply is_nan_spec in H. rewrite FloatAxioms.leb_spec, H.
  unfold SFleb. rewrite SFcompare_nan_r. reflexivity.
Qed.

(** [x < y] excludes [y < x] and [y <= x]. *)
Lemma ltb_asym (x y : float) :
  PrimFloat.ltb x y = true -> PrimFloat.ltb y x = false /\ PrimFloat.leb y x = false.
Proof.
  rewrite !FloatAxioms.ltb_spec, FloatAxioms.leb_spec. unfold SFltb, SFleb.
  rewrite (SFcompare_antisym (Prim2SF x) (Prim2SF y)).
  destruct (SFcompare (Prim2SF x) (Prim2SF y)) as [[| |]|]; try discriminate.
  intros _. split; reflexivity.
Qed.

(** Any two values that are not NaN compare. *)
Lemma ltb_or_leb (x y : float) :
  PrimFloat.is_nan x = false -> PrimFloat.is_nan y = false ->
  PrimFloat.ltb x y = true \/ PrimFloat.leb y x = true.
Proof.
  intros Hx Hy.
  assert (Hx' : Prim2SF x <> S754_nan).
  { intros H. apply is_nan_spec in H. congruence. }
  assert (Hy' : Prim2SF y <> S754_nan).
  { intros H. apply is_nan_spec in H. congruence. }
  rewrite FloatAxioms.ltb_spec, FloatAxioms.leb_spec. unfold SFltb, SFleb.
  rewrite (SFcompare_antisym (Prim2SF x) (Prim2SF y)).
  destruct (Prim2SF x) as [sx|sx| |sx mx ex], (Prim2SF y) as [sy|sy| |sy my ey];
    try contradiction;
    match goal with
    | |- context [SFcompare ?a ?b] => destruct (SFcompare a b) as [[| |]|] eqn:Hc
    end; cbn; auto; cbn in Hc;
    repeat match goal with
           | H : context [if ?s then _ else _] |- _ => destruct s
           | H : Some _ = None |- _ => discriminate H
           | H : None = Some _ |- _ => discriminate H
           end; discriminate.
Qed.

(** An absolute value is never below zero. *)
Lemma abs_not_negative (x : float) : PrimFloat.ltb (PrimFloat.abs x) 0 = false.
Proof.
  rewrite FloatAxioms.ltb_spec, FloatAxioms.abs_spec.
  destruct (Prim2SF x) as [s|s| |s m e]; reflexivity.
Qed.



(* ===================================================================== *)
(** * More about runs: all-in or all-out *)
(* ===================================================================== *)

Lemma flat_or_invested_traded (row : SignalRow.t) (e : BacktestingEngine) :
  flat_or_invested e -> flat_or_invested (traded row e).
Proof.
  intros H. unfold traded.
  repeat match goal with
         | |- context [if ?b then _ else _] => destruct b
         end; try exact H.
  - left. unfold sold.
    destruct (py_gtb (current_price e) (entry_price e)); reflexivity.
  - right. reflexivity.
Qed.

Lemma flat_or_invested_snapshot (e : BacktestingEngine) :
  flat_or_invested e ->
  Portfolio.shares_held (snapshot e) = 0%float \/ Portfolio.cash (snapshot e) = 0%float.
Proof. intros [H|H]; [left|right]; cbn; rewrite H; reflexivity. Qed.

Lemma flat_or_invested_after_periods (l : list SignalRow.t) (e : BacktestingEngine) :
  flat_or_invested e ->
  Forall (fun r => Portfolio.shares_held r = 0%float \/ Portfolio.cash r = 0%float)
         (portfolio_history (db_manager e)) ->
  flat_or_invested (after_periods l e)
  /\ Forall (fun r => Portfolio.shares_held r = 0%float \/ Portfolio.cash r = 0%float)
            (portfolio_history (db_manager (after_periods l e))).
Proof.
  revert e. induction l as [|row l IH]; intros e He Hh; [split; assumption|].
  cbn [after_periods fold_left]. fold (after_periods l (after_period row e)).
  unfold after_period. destruct (PrimFloat.is_nan (SignalRow.price row)).
  - apply IH; assumption.
  - pose proof (flat_or_invested_traded row (set_current row e) He) as Ht.
    apply IH; [exact Ht|].
    rewrite portfolio_history_marked, portfolio_history_traded.
    apply Forall_upsert; [apply flat_or_invested_snapshot, Ht | exact Hh].
Qed.

(** X1. All-in or all-out: a run ends without a position or without cash,
    and every snapshot it stores has zero shares or zero cash. *)
Theorem all_in_all_out (df : DataFrame) (e : BacktestingEngine) :
  let e' := fst (run_backtest df e) in
  (position_shares e' = PyFloat 0 \/ cash e' = PyFloat 0)
  /\ Forall (fun r => Portfolio.shares_held r = 0%float \/ Portfolio.cash r = 0%float)
            (portfolio_history (db_manager e')).
Proof.
  intros e'. subst e'. rewrite run_backtest_eq.
  assert (Hs : flat_or_invested (started e)) by (left; reflexivity).
  destruct (missing_columns df).
  - rewrite _generate_summary_state.
    apply flat_or_invested_after_periods; [exact Hs | constructor].
  - split; [exact Hs | constructor].
Qed.

(* ===================================================================== *)
(** * More about runs: the records follow the rows *)
(* ===================================================================== *)

Lemma trades_traded_stamp (row : SignalRow.t) (e : BacktestingEngine) :
  trades (db_manager (traded row e)) = trades (db_manager e)
  \/ exists t : Trade.t,
       trades (db_manager (traded row e)) = trades (db_manager e) ++ [t]
       /\ trade_stamp t = (current_date e, to_float (current_price e)).
Proof.
  unfold traded.
  repeat match goal with
         | |- context [if ?b then _ else _] => destruct b
         end; try (left; reflexivity).
  - right. unfold sold.
    destruct (py_gtb (current_price e) (entry_price e));
      eexists; split; reflexivity.
  - right. eexists. split; reflexivity.
Qed.

Lemma trades_after_periods (l : list SignalRow.t) (e : BacktestingEngine) :
  exists new : list Trade.t,
    trades (db_manager (after_periods l e)) = trades (db_manager e) ++ new
    /\ sublist (map trade_stamp new) (map row_stamp (List.filter processed l)).
Proof.
  revert e. induction l as [|row l IH]; intros e.
  - exists []. split; [symmetry; apply app_nil_r | constructor].
  - cbn [after_periods fold_left]. fold (after_periods l (after_period row e)).
    destruct (IH (after_period row e)) as (new & Hnew & Hsub).
    cbn [List.filter]. unfold processed at 1. unfold after_period in *.
    destruct (PrimFloat.is_nan (SignalRow.price row)); cbn [negb].
    + exists new. split; [exact Hnew | exact Hsub].
    + rewrite trades_marked in Hnew.
      destruct (trades_traded_stamp row (set_current row e)) as [Heq|(t & Heq & Ht)];
        rewrite Heq in Hnew.
      * exists new. split; [exact Hnew|]. cbn [map]. apply sublist_cons, Hsub.
      * exists (t :: new). split; [rewrite Hnew, <- app_assoc; reflexivity|].
        cbn [map]. rewrite Ht. apply sublist_skip, Hsub.
Qed.

(** X2. The trades of a run carry, in order, dates and prices of processed
    rows of the series, at most one trade per row. *)
Theorem trades_follow_rows (df : DataFrame) (e : BacktestingEngine) :
  sublist (map trade_stamp (trades (db_manager (fst (run_backtest df e)))))
          (map row_stamp (processed_rows df)).
Proof.
  rewrite run_backtest_eq. destruct (missing_columns df).
  - rewrite _generate_summary_state.
    destruct (trades_after_periods (tail (rows df)) (started e)) as (new & -> & Hsub).
    exact Hsub.
  - apply sublist_nil_l.
Qed.






(* ===================================================================== *)
(** * More about runs: the ledger is read back in the order written *)
(* ===================================================================== *)













(* ===================================================================== *)
(** * More about runs: round trips *)
(* ===================================================================== *)

Lemma list_ind2 {A : Type} (P : list A -> Prop) :
  P [] -> (forall x, P [x]) -> (forall x y l, P l -> P (x :: y :: l)) ->
  forall l, P l.
Proof.
  intros Hnil Hone Hstep.
  assert (H : forall l, P l /\ forall x, P (x :: l)).
  { induction l as [|y l [IH1 IH2]]; split; auto. }
  intros l. apply H.
Qed.

Lemma round_trips_app (l l2 : list Trade.t) :
  Nat.even (length l) = true ->
  round_trips (l ++ l2) = round_trips l ++ round_trips l2.
Proof.
  induction l as [| x | x y l IH] using list_ind2; intros Hev.
  - reflexivity.
  - discriminate.
  - cbn [app round_trips]. f_equal. apply IH. exact Hev.
Qed.

Lemma round_trips_open (l : list Trade.t) (b : Trade.t) :
  Nat.even (length l) = true -> round_trips (l ++ [b]) = round_trips l.
Proof. intros H. rewrite round_trips_app by exact H. apply app_nil_r. Qed.

Lemma round_trips_closed (l : list Trade.t) (b s : Trade.t) :
  Nat.even (length l) = true ->
  round_trips ((l ++ [b]) ++ [s]) = round_trips l ++ [(b, s)].
Proof.
  intros H. rewrite <- app_assoc. rewrite round_trips_app by exact H. reflexivity.
Qed.

Lemma round_trips_count (l : list Trade.t) :
  alternating BUY (map Trade.trade_type l) = true ->
  len (round_trips l) = count_type SELL l.
Proof.
  unfold count_type, len.
  induction l as [| x | x y l IH] using list_ind2; cbn [map alternating other].
  - reflexivity.
  - intros H. apply andb_prop in H as [H _]. apply trade_type_eqb_eq in H.
    cbn [List.filter]. rewrite H. reflexivity.
  - intros H. apply andb_prop in H as [Hx H]. apply andb_prop in H as [Hy H].
    apply trade_type_eqb_eq in Hx, Hy. cbn [round_trips List.filter length].
    rewrite Hx, Hy. cbn [trade_type_eqb length]. rewrite !Nat2Z.inj_succ.
    f_equal. apply IH, H.
Qed.

Lemma py_gtb_np (p : float) (x : pyval) :
  py_gtb (NpFloat p) x = PrimFloat.ltb (to_float x) p.
Proof. destruct x; reflexivity. Qed.

Lemma next_type_even (l : list trade_type) :
  next_type l = BUY <-> Nat.even (length l) = true.
Proof. unfold next_type. destruct (Nat.even (length l)); intuition discriminate. Qed.

Lemma round_trip_inv_traded (row : SignalRow.t) (e : BacktestingEngine) (p : float) :
  current_price e = NpFloat p ->
  alternation_inv e -> round_trip_inv e -> round_trip_inv (traded row e).
Proof.
  intros Hp [Halt Hnext] Hinv. pose proof Hinv as (Hok & Hw & Hl & Hopen).
  unfold traded.
  destruct (py_gtb (position_shares e) (PyInt 0)) eqn:Hheld.
  - destruct (should_exit row e); [|exact Hinv].
    destruct (py_leb (position_shares e) (PyInt 0)); [exact Hinv|].
    destruct (next_type (trade_types e)) eqn:Hty; [congruence|].
    destruct (Hopen eq_refl) as (l0 & b & Hl0 & Hev & Hb & Hshares & Hentry).
    assert (Hwin : forall s : Trade.t,
               Trade.price s = to_float (current_price e) ->
               sold_higher (b, s) = py_gtb (current_price e) (entry_price e)).
    { intros s Hs. rewrite Hp, py_gtb_np. unfold sold_higher. cbn [fst snd].
      rewrite Hs, Hp, Hentry. reflexivity. }
    unfold round_trip_inv. cbv zeta.
    rewrite trade_types_sold, next_type_snoc, Hty. cbn [other]. unfold sold.
    destruct (py_gtb (current_price e) (entry_price e)) eqn:Hgt;
      cbn [db_manager trades winning_trades losing_trades set_trades_executed
           set_db_manager set_position_shares set_cash set_winning_trades
           set_losing_trades log_trade position_shares cash
           current_price current_date entry_price];
      rewrite Hl0, round_trips_closed by exact Hev;
      rewrite Hl0, round_trips_open in Hok, Hw, Hl by exact Hev;
      rewrite !List.filter_app; cbn [List.filter]; rewrite !Hwin by reflexivity;
      cbn [negb]; rewrite ?app_nil_r, ?len_app;
      (split; [apply List.Forall_app; split; [exact Hok|];
               apply List.Forall_cons; [|apply List.Forall_nil];
               split; [exact Hb|]; split; [reflexivity | exact Hshares] |]);
      (split; [cbn [len length]; lia|]); (split; [cbn [len length]; lia|]);
      discriminate.
  - destruct (PrimFloat.eqb (SignalRow.signal row) 1); [|exact Hinv].
    destruct (py_leb (cash e) (PyInt 0)) eqn:Hcash; [exact Hinv|].
    destruct (next_type (trade_types e)) eqn:Hty; [|congruence].
    assert (Hev : Nat.even (length (trades (db_manager e))) = true).
    { apply next_type_even in Hty. unfold trade_types in Hty.
      rewrite length_map in Hty. exact Hty. }
    unfold round_trip_inv, bought.
    cbn [db_manager trades winning_trades losing_trades set_trades_executed
         set_db_manager set_position_shares set_cash set_entry_price log_trade
         position_shares cash current_price current_date entry_price].
    rewrite round_trips_open by exact Hev.
    split; [exact Hok|]. split; [exact Hw|]. split; [exact Hl|].
    intros _. eexists _, _. split; [reflexivity|]. split; [exact Hev|].
    repeat split.
Qed.

Lemma round_trip_inv_after_periods (l : list SignalRow.t) (e : BacktestingEngine) :
  alternation_inv e -> round_trip_inv e -> round_trip_inv (after_periods l e).
Proof.
  revert e. induction l as [|row l IH]; intros e Ha Hr; [exact Hr|].
  cbn [after_periods fold_left]. fold (after_periods l (after_period row e)).
  apply IH; [apply alternation_inv_after_period, Ha|].
  unfold after_period. destruct (PrimFloat.is_nan (SignalRow.price row)); [exact Hr|].
  exact (round_trip_inv_traded row (set_current row e) (SignalRow.price row)
           eq_refl Ha Hr).
Qed.

Lemma round_trip_inv_started (e : BacktestingEngine) : round_trip_inv (started e).
Proof.
  unfold round_trip_inv. cbn. split; [constructor|].
  split; [reflexivity|]. split; [reflexivity|]. discriminate.
Qed.

(** X5. The trades of a run are round trips, each a Buy and then a Sell of
    exactly the shares bought, followed by at most one open Buy; there are
    as many round trips as Sells, the summary's winning trades are the
    round trips sold above their purchase price and its losing trades are
    all the others. *)
Theorem summary_counts_round_trips (df : DataFrame) (e : BacktestingEngine)
    (s : Summary.t) :
  snd (run_backtest df e) = Ok s ->
  let l := trades (db_manager (fst (run_backtest df e))) in
  Forall round_trip_ok (round_trips l)
  /\ len (round_trips l) = count_type SELL l
  /\ Summary.winning_trades s = len (List.filter sold_higher (round_trips l))
  /\ Summary.losing_trades s =
       len (List.filter (fun bs => negb (sold_higher bs)) (round_trips l)).
Proof.
  intros Hs l. subst l.
  pose proof (alternation_inv_run df e) as [Halt _].
  revert Hs Halt. unfold trade_types. rewrite run_backtest_eq.
  destruct (missing_columns df); [|discriminate].
  rewrite _generate_summary_state. intros Hs Halt.
  destruct (round_trip_inv_after_periods (tail (rows df)) (started e)
              (alternation_inv_started e) (round_trip_inv_started e))
    as (Hok & Hw & Hl & _).
  apply _generate_summary_ok in Hs as (_ & Hwin & Hlose & _).
  split; [exact Hok|]. split; [apply round_trips_count, Halt|].
  rewrite Hwin, Hlose. split; assumption.
Qed.

Lemma summary_counts_round_trips_witness :
  exists s : Summary.t,
    snd (run_backtest round_trip_df fresh_engine) = Ok s
    /\ Summary.winning_trades s = 1 /\ Summary.losing_trades s = 0.
Proof.
  destruct (snd (run_backtest round_trip_df fresh_engine)) as [s|err] eqn:Hs;
    [|vm_compute in Hs; discriminate].
  exists s. split; [reflexivity|].
  destruct (summary_counts_round_trips round_trip_df fresh_engine s Hs)
    as (_ & _ & Hw & Hl).
  rewrite Hw, Hl. split; vm_compute; reflexivity.
Defined.

(* ===================================================================== *)
(** * More about runs: what a run depends on *)
(* ===================================================================== *)

Ltac engine_fields :=
  cbn [initial_capital cash position_shares last_portfolio_value db_manager
       strategy current_date current_price current_row trades_executed
       winning_trades losing_trades entry_price
       set_cash set_position_shares set_last_portfolio_value set_db_manager
       set_current set_trades_executed set_winning_trades set_losing_trades
       set_entry_price] in *.

Lemma same_run_started (e1 e2 : BacktestingEngine) :
  initial_capital e1 = initial_capital e2 -> strategy e1 = strategy e2 ->
  same_run (started e1) (started e2).
Proof.
  intros Hic Hst. unfold same_run, started, reset_portfolio. engine_fields.
  rewrite Hic, Hst, py_gtb_zero. repeat split. discriminate.
Qed.

Lemma same_run_traded (row : SignalRow.t) (e1 e2 : BacktestingEngine) :
  same_run e1 e2 ->
  current_date e1 = current_date e2 -> current_price e1 = current_price e2 ->
  same_run (traded row e1) (traded row e2)
  /\ current_date (traded row e1) = current_date (traded row e2)
  /\ current_price (traded row e1) = current_price (traded row e2).
Proof.
  destruct e1 as [ic1 c1 ps1 lpv1 db1 st1 cd1 cp1 cr1 te1 wt1 lt1 ep1].
  destruct e2 as [ic2 c2 ps2 lpv2 db2 st2 cd2 cp2 cr2 te2 wt2 lt2 ep2].
  unfold same_run. engine_fields.
  intros (-> & -> & -> & -> & -> & -> & -> & -> & Hep) -> ->.
  unfold traded, should_exit. engine_fields.
  destruct (py_gtb ps2 (PyInt 0)) eqn:Hheld.
  - rewrite (Hep eq_refl).
    destruct (match st2 with Some _ => _ | None => _ end);
      [|engine_fields; rewrite Hheld; repeat split].
    destruct (py_leb ps2 (PyInt 0)); [engine_fields; rewrite Hheld; repeat split|].
    unfold sold. engine_fields.
    destruct (py_gtb cp2 ep2); engine_fields; rewrite py_gtb_zero;
      repeat split; discriminate.
  - destruct (PrimFloat.eqb (SignalRow.signal row) 1);
      [|engine_fields; rewrite Hheld; repeat split; discriminate].
    destruct (py_leb c2 (PyInt 0));
      [engine_fields; rewrite Hheld; repeat split; discriminate|].
    unfold bought. engine_fields. repeat split.
Qed.

Lemma same_run_marked (e1 e2 : BacktestingEngine) :
  same_run e1 e2 ->
  current_date e1 = current_date e2 -> current_price e1 = current_price e2 ->
  same_run (marked e1) (marked e2)
  /\ last_portfolio_value (marked e1) = last_portfolio_value (marked e2).
Proof.
  destruct e1 as [ic1 c1 ps1 lpv1 db1 st1 cd1 cp1 cr1 te1 wt1 lt1 ep1].
  destruct e2 as [ic2 c2 ps2 lpv2 db2 st2 cd2 cp2 cr2 te2 wt2 lt2 ep2].
  unfold same_run, marked. engine_fields.
  intros (-> & -> & -> & -> & -> & -> & -> & -> & Hep) -> ->.
  repeat split. exact Hep.
Qed.

Lemma same_run_after_period (row : SignalRow.t) (e1 e2 : BacktestingEngine) :
  same_run e1 e2 ->
  same_run (after_period row e1) (after_period row e2)
  /\ (processed row = true ->
      last_portfolio_value (after_period row e1)
      = last_portfolio_value (after_period row e2)).
Proof.
  intros H. unfold after_period, processed.
  destruct (PrimFloat.is_nan (SignalRow.price row)).
  - split; [exact H | discriminate].
  - destruct (same_run_traded row (set_current row e1) (set_current row e2) H
                eq_refl eq_refl) as (Ht & Hd & Hp).
    destruct (same_run_marked _ _ Ht Hd Hp) as [Hm Hv].
    split; [exact Hm | intros _; exact Hv].
Qed.

Lemma same_run_after_periods (l : list SignalRow.t) (e1 e2 : BacktestingEngine) :
  same_run e1 e2 ->
  (existsb processed l = true
   \/ last_portfolio_value e1 = last_portfolio_value e2 ->
   last_portfolio_value (after_periods l e1)
   = last_portfolio_value (after_periods l e2))
  /\ same_run (after_periods l e1) (after_periods l e2).
Proof.
  revert e1 e2. induction l as [|row l IH]; intros e1 e2 H.
  - split; [|exact H]. intros [Hp|Hv]; [discriminate | exact Hv].
  - cbn [after_periods fold_left].
    fold (after_periods l (after_period row e1)).
    fold (after_periods l (after_period row e2)).
    destruct (same_run_after_period row e1 e2 H) as [H' Hv'].
    destruct (IH _ _ H') as [IHv IHs]. split; [|exact IHs].
    intros Hor. apply IHv. cbn [existsb] in Hor.
    destruct (processed row) eqn:Hrow.
    + right. apply Hv'. reflexivity.
    + destruct Hor as [Hp|Hv]; [left; exact Hp|].
      right. unfold after_period. unfold processed in Hrow.
      destruct (PrimFloat.is_nan (SignalRow.price row)); [exact Hv | discriminate].
Qed.

Lemma _generate_summary_same (e1 e2 : BacktestingEngine) :
  same_run e1 e2 -> last_portfolio_value e1 = last_portfolio_value e2 ->
  snd (_generate_summary e1) = snd (_generate_summary e2).
Proof.
  intros (Hic & _ & _ & _ & _ & Hte & Hwt & Hlt & _) Hv.
  unfold _generate_summary, bind, gets, lift, ret. cbn beta iota.
  rewrite Hic, Hv, Hte, Hwt, Hlt.
  destruct (py_div _ _); [|reflexivity].
  destruct (0 <? trades_executed e2); [|reflexivity].
  destruct (py_div _ _); reflexivity.
Qed.

Lemma last_portfolio_value_unprocessed (l : list SignalRow.t) (e : BacktestingEngine) :
  existsb processed l = false ->
  last_portfolio_value (after_periods l e) = last_portfolio_value e.
Proof.
  revert e. induction l as [|row l IH]; intros e H; [reflexivity|].
  cbn [after_periods fold_left]. fold (after_periods l (after_period row e)).
  cbn [existsb] in H. apply orb_false_elim in H as [Hrow H].
  rewrite IH by exact H. unfold after_period. unfold processed in Hrow.
  destruct (PrimFloat.is_nan (SignalRow.price row)); [reflexivity | discriminate].
Qed.

Lemma strategy_after_periods (l : list SignalRow.t) (e : BacktestingEngine) :
  strategy (after_periods l e) = strategy e.
Proof.
  revert e. induction l as [|row l IH]; intros e; [reflexivity|].
  cbn [after_periods fold_left]. fold (after_periods l (after_period row e)).
  rewrite IH. unfold after_period, marked, traded, bought, sold.
  repeat match goal with
         | |- context [if ?b then _ else _] => destruct b
         end; reflexivity.
Qed.

(** X6. What a run writes depends on the engine only through its initial
    capital and its strategy: two engines that agree on these, whatever
    else they hold from earlier runs, leave the same trades and snapshots,
    the same cash, shares and counters, and, when a period of the data is
    processed, return the same summary or raise the same exception. *)
Theorem run_depends_on_capital_and_strategy (df : DataFrame)
    (e1 e2 : BacktestingEngine) :
  initial_capital e1 = initial_capital e2 -> strategy e1 = strategy e2 ->
  let r1 := run_backtest df e1 in
  let r2 := run_backtest df e2 in
  db_manager (fst r1) = db_manager (fst r2)
  /\ cash (fst r1) = cash (fst r2)
  /\ position_shares (fst r1) = position_shares (fst r2)
  /\ trades_executed (fst r1) = trades_executed (fst r2)
  /\ (existsb processed (tail (rows df)) = true -> snd r1 = snd r2).
Proof.
  intros Hic Hst r1 r2. subst r1 r2. rewrite !run_backtest_eq.
  pose proof (same_run_started e1 e2 Hic Hst) as H0.
  destruct (missing_columns df).
  - rewrite !_generate_summary_state.
    destruct (same_run_after_periods (tail (rows df)) _ _ H0) as [Hv Hs].
    pose proof Hs as (_ & Hc & Hps & Hdb & _ & Hte & _).
    repeat split; try assumption.
    intros Hp. apply _generate_summary_same; [exact Hs|]. apply Hv. left. exact Hp.
  - destruct H0 as (_ & Hc & Hps & Hdb & _ & Hte & _).
    cbn [fst snd]. repeat split; assumption.
Qed.

Lemma run_depends_on_capital_and_strategy_witness :
  db_manager (fst (run_backtest round_trip_df used_engine))
  = db_manager (fst (run_backtest round_trip_df fresh_engine))
  /\ snd (run_backtest round_trip_df used_engine)
     = snd (run_backtest round_trip_df fresh_engine).
Proof.
  pose proof (run_depends_on_capital_and_strategy round_trip_df
                used_engine fresh_engine eq_refl eq_refl) as H.
  cbv zeta in H. destruct H as (Hdb & _ & _ & _ & Hs).
  split; [exact Hdb|]. apply Hs. vm_compute. reflexivity.
Defined.

(** X7. Running the same data again on the engine a run has left behind
    repeats the run: the same summary is returned or the same exception
    raised, and the same trades and snapshots are in the store. *)
Theorem run_again_repeats (df : DataFrame) (e : BacktestingEngine) :
  let e' := fst (run_backtest df e) in
  snd (run_backtest df e') = snd (run_backtest df e)
  /\ db_manager (fst (run_backtest df e')) = db_manager e'
  /\ cash (fst (run_backtest df e')) = cash e'
  /\ position_shares (fst (run_backtest df e')) = position_shares e'.
Proof.
  intros e'. subst e'. rewrite !run_backtest_eq.
  destruct (missing_columns df) eqn:Hcols.
  - rewrite !_generate_summary_state.
    set (e' := after_periods (tail (rows df)) (started e)).
    assert (H0 : same_run (started e') (started e)).
    { apply same_run_started; subst e'.
      - rewrite initial_capital_after_periods. reflexivity.
      - rewrite strategy_after_periods. reflexivity. }
    destruct (same_run_after_periods (tail (rows df)) _ _ H0) as [Hv Hs].
    fold e' in Hv, Hs.
    pose proof Hs as (_ & Hc & Hps & Hdb & _).
    split; [|repeat split; assumption].
    apply _generate_summary_same; [exact Hs|]. apply Hv.
    destruct (existsb processed (tail (rows df))) eqn:Hp; [left; reflexivity|].
    right. subst e'. unfold started at 1, reset_portfolio. engine_fields.
    apply last_portfolio_value_unprocessed, Hp.
  - cbn [fst snd]. unfold started, reset_portfolio, clear_data. engine_fields.
    repeat split.
Qed.

(* ===================================================================== *)
(** * More about runs: the summary and the store *)
(* ===================================================================== *)






Lemma length_insert_by {A : Type} (key : A -> date) (x : A) (l : list A) :
  length (insert_by key x l) = S (length l).
Proof.
  induction l as [|y l IH]; [reflexivity|].
  cbn [insert_by]. destruct (key x <=? key y); cbn [length]; [reflexivity|].
  rewrite IH. reflexivity.
Qed.

Lemma length_order_by {A : Type} (key : A -> date) (l : list A) :
  length (order_by key l) = length l.
Proof.
  unfold order_by. induction l as [|x l IH]; [reflexivity|].
  cbn [fold_right length]. rewrite length_insert_by, IH. reflexivity.
Qed.



(* ===================================================================== *)
(** * More about runs: the position afterwards *)
(* ===================================================================== *)




(* ===================================================================== *)
(** * More about the store *)
(* ===================================================================== *)

Section OrderByMore.

Context {A : Type} (key : A -> date).

Lemma insert_by_perm (x : A) (l : list A) : insert_by key x l ≡ₚ x :: l.
Proof.
  induction l as [|y l IH]; [reflexivity|].
  cbn [insert_by]. destruct (key x <=? key y); [reflexivity|].
  rewrite IH. apply perm_swap.
Qed.

Lemma order_by_perm (l : list A) : order_by key l ≡ₚ l.
Proof.
  unfold order_by. induction l as [|x l IH]; [reflexivity|].
  cbn [fold_right]. rewrite insert_by_perm, IH. reflexivity.
Qed.

Lemma insert_by_same_date (d : date) (x : A) (l : list A) :
  List.filter (fun y => key y =? d) (insert_by key x l)
  = List.filter (fun y => key y =? d) (x :: l).
Proof.
  induction l as [|y l IH]; [reflexivity|].
  cbn [insert_by]. destruct (Z.leb_spec (key x) (key y)) as [Hle|Hgt];
    [reflexivity|].
  cbn [List.filter] in *. rewrite IH.
  destruct (Z.eqb_spec (key y) d) as [Hy|Hy],
           (Z.eqb_spec (key x) d) as [Hx|Hx]; try reflexivity.
  lia.
Qed.

Lemma order_by_same_date (d : date) (l : list A) :
  List.filter (fun y => key y =? d) (order_by key l)
  = List.filter (fun y => key y =? d) l.
Proof.
  unfold order_by. induction l as [|x l IH]; [reflexivity|].
  cbn [fold_right]. rewrite insert_by_same_date.
  cbn [List.filter]. rewrite IH. reflexivity.
Qed.

Lemma sorted_first (x : A) (l : list A) :
  StronglySorted (key_le key) (x :: l) ->
  forall y : A, In y (x :: l) -> key x <= key y.
Proof.
  intros Hs y [->|Hy]; [lia|].
  apply StronglySorted_inv in Hs as [_ Hx].
  rewrite List.Forall_forall in Hx. exact (Hx y Hy).
Qed.

End OrderByMore.

(** X10. What the store returns is what it holds, rearranged: the trades
    and the snapshots are read in date order, none lost or added, and the
    records of one date come in the order they were written. *)
Theorem store_reads_by_date (db : DatabaseManager) :
  (StronglySorted (key_le Trade.trade_date) (get_trades db)
   /\ get_trades db ≡ₚ trades db
   /\ forall d : date,
        List.filter (fun t => Trade.trade_date t =? d) (get_trades db)
        = List.filter (fun t => Trade.trade_date t =? d) (trades db))
  /\ (StronglySorted (key_le Portfolio.date) (get_portfolio_history db)
      /\ get_portfolio_history db ≡ₚ portfolio_history db
      /\ forall d : date,
           List.filter (fun r => Portfolio.date r =? d) (get_portfolio_history db)
           = List.filter (fun r => Portfolio.date r =? d) (portfolio_history db)).
Proof.
  unfold get_trades, get_portfolio_history.
  split; (split; [apply order_by_sorted|]);
    (split; [apply order_by_perm|]); intros d; apply order_by_same_date.
Qed.





Lemma dict_getitem_Ok (d : dict) (k : string) (v : pyval) :
  dict_getitem d k = Ok v <-> d !! k = Some v.
Proof.
  unfold dict_getitem. destruct (d !! k); split; intros H;
    try discriminate; congruence.
Qed.


(** X13. The store's summary of the last backtest, for any store.  There is
    none exactly when there is no snapshot.  Otherwise it counts every trade
    record, its date range spans the dates of all snapshots, and its final
    portfolio value is the total value of a snapshot of the latest date. *)
Theorem last_backtest_summary_outcome (db : DatabaseManager) :
  match get_last_backtest_summary db with
  | None => portfolio_history db = []
  | Some ls =>
      LastSummary.total_trades ls = len (trades db)
      /\ LastSummary.last_update ls = snd (LastSummary.date_range ls)
      /\ (forall r : Portfolio.t, In r (portfolio_history db) ->
            fst (LastSummary.date_range ls) <= Portfolio.date r
            <= snd (LastSummary.date_range ls))
      /\ (exists r : Portfolio.t,
            In r (portfolio_history db)
            /\ Portfolio.date r = LastSummary.last_update ls
            /\ Portfolio.total_value r = LastSummary.final_portfolio_value ls)
  end.
Proof.
  unfold get_last_backtest_summary. cbv zeta.
  pose proof (order_by_sorted Portfolio.date (portfolio_history db)) as Hs.
  pose proof (fun y => In_order_by Portfolio.date y (portfolio_history db)) as Hin.
  fold (get_portfolio_history db) in Hs, Hin.
  destruct (get_portfolio_history db) as [|first_row rest] eqn:Hread.
  - unfold get_portfolio_history in Hread. apply order_by_nil in Hread. exact Hread.
  - destruct (last_cons_defined first_row rest) as [last_row Hlast].
    rewrite Hlast. cbn [LastSummary.total_trades LastSummary.last_update
                        LastSummary.date_range LastSummary.final_portfolio_value
                        fst snd].
    destruct (sorted_last Portfolio.date _ _ Hs Hlast) as [Hl Hmax].
    split; [unfold get_trades, len; rewrite length_order_by; reflexivity|].
    split; [reflexivity|]. split.
    + intros r Hr. apply Hin in Hr. split.
      * exact (sorted_first Portfolio.date _ _ Hs r Hr).
      * exact (Hmax r Hr).
    + exists last_row. split; [apply Hin, Hl|]. split; reflexivity.
Qed.

(* ===================================================================== *)
(** * More about the metrics engine *)
(* ===================================================================== *)

(** The risk metrics have two entries when there are fewer than two daily
    returns, and three otherwise. *)
Lemma _calculate_risk_metrics_keys (rf : pyval) (s : Analyzer.t) :
  exists d : dict,
    _calculate_risk_metrics rf s = (s, Ok d)
    /\ (if len (daily_returns_of (total_values s)) <? 2
        then d = list_to_map [("sharpe_ratio", PyInt 0);
                              ("annualized_volatility", PyInt 0)]%string
        else exists v1 v2 v3 : pyval,
               d = list_to_map [("annualized_volatility", v1);
                                ("sharpe_ratio", v2);
                                ("sortino_ratio", v3)]%string).
Proof.
  destruct (_calculate_risk_metrics_eq rf s) as (d & Hd & _ & Hshape).
  exists d. split; [exact Hd|].
  revert Hd. unfold _calculate_risk_metrics, bind, gets, lift, ret.
  cbn beta iota zeta. fold (daily_returns_of (total_values s)).
  destruct (len (daily_returns_of (total_values s)) <? 2).
  - intros [= <-]. reflexivity.
  - intros Hd. destruct Hshape as [(v1 & v2 & ->)|Hshape]; [|exact Hshape].
    exfalso. revert Hd.
    repeat match goal with
           | |- context [if ?b then _ else _] => destruct b
           end;
      repeat match goal with
             | |- context [py_div ?x ?y] => destruct (py_div x y)
             end; intros [= Hd];
      apply (f_equal (fun m : dict => m !! "sortino_ratio"%string)) in Hd;
      vm_compute in Hd; discriminate.
Qed.

(** The combined dictionary: the entries of the report and the row the
    store is given. *)
Lemma combined_metrics_report (b1 b2 b3 b4 b5 b6 b7 : pyval) (r : dict)
    (t1 t2 t3 t4 t5 t6 t7 t8 t9 d1 d2 d3 : pyval) :
  (exists v1 v2 : pyval,
      r = list_to_map [("sharpe_ratio", v1); ("annualized_volatility", v2)]%string)
  \/ (exists v1 v2 v3 : pyval,
        r = list_to_map [("annualized_volatility", v1); ("sharpe_ratio", v2);
                         ("sortino_ratio", v3)]%string) ->
  let b : dict :=
    list_to_map
      [("initial_capital", b1); ("final_portfolio_value", b2);
       ("total_return", b3); ("annualized_return", b4); ("total_days", b5);
       ("avg_daily_return", b6); ("daily_volatility", b7)]%string in
  let t : dict :=
    list_to_map
      [("total_trades", t1); ("winning_trades", t2); ("losing_trades", t3);
       ("win_rate", t4); ("avg_win", t5); ("avg_loss", t6);
       ("profit_factor", t7); ("largest_win", t8); ("largest_loss", t9)]%string in
  let d : dict :=
    list_to_map [("max_drawdown", d1); ("current_drawdown", d2);
                 ("avg_drawdown", d3)]%string in
  let m := dict_merge (dict_merge (dict_merge b r) t) d in
  dict_is_empty m = false
  /\ m !! "annualized_volatility" = r !! "annualized_volatility"
  /\ m !! "sortino_ratio" = r !! "sortino_ratio"
  /\ (exists v : pyval, r !! "annualized_volatility" = Some v)
  /\ (exists v : pyval, r !! "sharpe_ratio" = Some v).
Proof.
  intros [(v1 & v2 & ->)|(v1 & v2 & v3 & ->)]; intros b t d m;
    subst b t d m; repeat split; try (vm_compute; reflexivity);
    eexists; vm_compute; reflexivity.
Qed.

(** What an analysis over a store with a snapshot does, step by step. *)
Lemma analyze_performance_eq (pow : float -> float -> float) (rf : pyval)
    (a : Analyzer.t) :
  portfolio_history (Analyzer.db_manager a) <> [] ->
  exists (b1 b2 b3 b4 b5 b6 b7 : pyval) (r : dict)
         (t1 t2 t3 t4 t5 t6 t7 t8 t9 d1 d2 d3 : pyval),
    let b : dict :=
      list_to_map
        [("initial_capital", b1); ("final_portfolio_value", b2);
         ("total_return", b3); ("annualized_return", b4); ("total_days", b5);
         ("avg_daily_return", b6); ("daily_volatility", b7)]%string in
    let t : dict :=
      list_to_map
        [("total_trades", t1); ("winning_trades", t2); ("losing_trades", t3);
         ("win_rate", t4); ("avg_win", t5); ("avg_loss", t6);
         ("profit_factor", t7); ("largest_win", t8); ("largest_loss", t9)]%string in
    let d : dict :=
      list_to_map [("max_drawdown", d1); ("current_drawdown", d2);
                   ("avg_drawdown", d3)]%string in
    let m := dict_merge (dict_merge (dict_merge b r) t) d in
    _calculate_basic_metrics pow (loaded a) = (loaded a, Ok b)
    /\ _calculate_risk_metrics rf (loaded a) = (loaded a, Ok r)
    /\ _calculate_trade_metrics (loaded a) = (loaded a, Ok t)
    /\ _calculate_drawdown_metrics (loaded a) = (loaded a, Ok d)
    /\ ((exists v1 v2 : pyval,
           r = list_to_map [("sharpe_ratio", v1);
                            ("annualized_volatility", v2)]%string)
        \/ (exists v1 v2 v3 : pyval,
              r = list_to_map [("annualized_volatility", v1);
                               ("sharpe_ratio", v2);
                               ("sortino_ratio", v3)]%string))
    /\ analyze_performance pow rf a =
       (Analyzer.mk
          (mkDB (trades (Analyzer.db_manager a))
                (portfolio_history (Analyzer.db_manager a))
                (performance_metrics (Analyzer.db_manager a) ++
                   [Perf.mk b1 b2 b3 t1 t2 t3 t4 d1 (m !! "sharpe_ratio")]))
          (get_portfolio_history (Analyzer.db_manager a))
          (get_trades (Analyzer.db_manager a)) m,
        Ok m).
Proof.
  intros Hne.
  assert (Hdf : Analyzer.portfolio_df (loaded a) <> []).
  { cbn. intros H. apply order_by_nil in H. contradiction. }
  destruct (_calculate_basic_metrics_eq pow (loaded a) Hdf)
    as (b1 & b2 & b3 & b4 & b5 & b6 & b7 & Hb).
  destruct (_calculate_risk_metrics_eq rf (loaded a)) as (r & Hr & _ & Hshape).
  destruct (_calculate_trade_metrics_eq (loaded a))
    as (t1 & t2 & t3 & t4 & t5 & t6 & t7 & t8 & t9 & Ht).
  destruct (_calculate_drawdown_metrics_eq (loaded a) Hdf) as (d1 & d2 & d3 & Hd).
  exists b1, b2, b3, b4, b5, b6, b7, r, t1, t2, t3, t4, t5, t6, t7, t8, t9,
    d1, d2, d3.
  cbv zeta. split; [exact Hb|]. split; [exact Hr|]. split; [exact Ht|].
  split; [exact Hd|]. split; [exact Hshape|].
  destruct (combined_metrics b1 b2 b3 b4 b5 b6 b7 r t1 t2 t3 t4 t5 t6 t7 t8 t9
              d1 d2 d3 Hshape)
    as ((Hk1 & Hk2 & Hk3 & Hk4) & _ & _ & (Ht1 & Ht2 & Ht3 & Ht4) & _).
  unfold analyze_performance, bind, modify, gets, raise, ret. cbn beta iota.
  repeat match goal with
         | |- context [set_trades_df ?x (set_portfolio_df ?y a)] =>
             change (set_trades_df x (set_portfolio_df y a)) with (loaded a)
         end.
  destruct (Analyzer.portfolio_df (loaded a)) as [|row rows_] eqn:Hrows;
    [contradiction|].
  cbn [length Nat.eqb]. rewrite Hb, Hr, Ht, Hd.
  unfold on_db, log_performance_metrics, bind, lift, modify, dict_getitem.
  cbn [Analyzer.db_manager set_metrics].
  repeat match goal with
         | H : ?m !! ?k = Some _ |- context [?m !! ?k] => rewrite H
         end.
  cbn beta iota. reflexivity.
Qed.

Lemma analyze_performance_empty (pow : float -> float -> float) (rf : pyval)
    (a : Analyzer.t) :
  portfolio_history (Analyzer.db_manager a) = [] ->
  analyze_performance pow rf a = (loaded a, Raise ValueError).
Proof.
  intros Hempty.
  unfold analyze_performance, bind, modify, gets, raise, ret. cbn beta iota.
  repeat match goal with
         | |- context [set_trades_df ?x (set_portfolio_df ?y a)] =>
             change (set_trades_df x (set_portfolio_df y a)) with (loaded a)
         end.
  assert (Hdf : Analyzer.portfolio_df (loaded a) = []).
  { cbn. unfold get_portfolio_history. rewrite Hempty. reflexivity. }
  rewrite Hdf. reflexivity.
Qed.


Lemma length_pct_change_from (prev : float) (l : list float) :
  length (pct_change_from prev l) = length l.
Proof.
  revert prev. induction l as [|x l IH]; intros prev; [reflexivity|].
  cbn [pct_change_from length]. rewrite IH. reflexivity.
Qed.

Lemma length_daily_returns_of (l : list float) :
  (length (daily_returns_of l) <= length l - 1)%nat.
Proof.
  unfold daily_returns_of, dropna, pct_change.
  destruct l as [|x l]; [reflexivity|].
  cbn [List.filter]. change (PrimFloat.is_nan nan) with true. cbn [negb length].
  pose proof (List.filter_length_le (fun y => negb (PrimFloat.is_nan y))
                (pct_change_from x l)) as H.
  rewrite length_pct_change_from in H. lia.
Qed.

(** X15. The report after an analysis.  When the snapshots give fewer than
    two daily returns, as whenever there are at most two snapshots, the
    analysis returns metrics without a Sortino ratio and printing the
    report raises [KeyError] for it; otherwise the report prints its
    sixteen numbers.  The short summary is always produced. *)
Theorem report_after_analysis (pow : float -> float -> float) (rf : pyval)
    (a : Analyzer.t) :
  portfolio_history (Analyzer.db_manager a) <> [] ->
  let a' := fst (analyze_performance pow rf a) in
  let returns :=
    daily_returns_of
      (map Portfolio.total_value (get_portfolio_history (Analyzer.db_manager a))) in
  (if len returns <? 2
   then snd (print_performance_report a') = Raise (KeyError "sortino_ratio")
   else exists l : list pyval,
          snd (print_performance_report a') = Ok l /\ length l = 16%nat)
  /\ (exists l : list pyval,
        snd (get_metrics_summary a') = Ok (Some l) /\ length l = 6%nat)
  /\ ((length (portfolio_history (Analyzer.db_manager a)) <= 2)%nat ->
      (len returns <? 2) = true).
Proof.
  intros Hne a' returns. subst a' returns.
  destruct (analyze_performance_eq pow rf a Hne)
    as (b1 & b2 & b3 & b4 & b5 & b6 & b7 & r & t1 & t2 & t3 & t4 & t5 & t6
        & t7 & t8 & t9 & d1 & d2 & d3 & H).
  cbv zeta in H. destruct H as (_ & Hr & _ & _ & Hshape & ->).
  destruct (combined_metrics b1 b2 b3 b4 b5 b6 b7 r t1 t2 t3 t4 t5 t6 t7 t8 t9
              d1 d2 d3 Hshape)
    as ((Hk1 & Hk2 & Hk3 & Hk4) & Hk5 & Hks & (Ht1 & Ht2 & Ht3 & Ht4)
        & (Ht5 & Ht6 & Ht7 & _)).
  destruct (combined_metrics_report b1 b2 b3 b4 b5 b6 b7 r t1 t2 t3 t4 t5 t6 t7
              t8 t9 d1 d2 d3 Hshape)
    as (Hsize & Hvol & Hsort & [vol Hvol'] & [sharpe Hsharpe]).
  rewrite Hvol' in Hvol. rewrite Hsharpe in Hks.
  destruct (_calculate_risk_metrics_keys rf (loaded a)) as (r' & Hr' & Hkeys).
  rewrite Hr in Hr'. injection Hr' as <-.
  change (total_values (loaded a))
    with (map Portfolio.total_value (get_portfolio_history (Analyzer.db_manager a)))
    in Hkeys.
  cbn [fst].
  split; [|split].
  - unfold print_performance_report, bind, gets, lift, ret, dict_getitem.
    cbn [Analyzer.metrics]. rewrite Hsize.
    rewrite Hk1, Hk2, Hk3, Hk4, Hk5, Hvol, Hks, Hsort, Ht1, Ht2, Ht3, Ht4,
      Ht5, Ht6, Ht7.
    destruct (len _ <? 2).
    + rewrite Hkeys. reflexivity.
    + destruct Hkeys as (v1 & v2 & v3 & ->).
      eexists. split; reflexivity.
  - unfold get_metrics_summary, bind, gets, lift, ret, dict_getitem.
    cbn [Analyzer.metrics]. rewrite Hsize.
    rewrite Hk3, Hk4, Hk5, Hks, Ht1, Ht4.
    eexists. split; reflexivity.
  - intros Hlen. apply Z.ltb_lt. unfold len.
    pose proof (length_daily_returns_of
                  (map Portfolio.total_value
                     (get_portfolio_history (Analyzer.db_manager a)))) as Hle.
    rewrite length_map in Hle.
    assert (Hread : length (get_portfolio_history (Analyzer.db_manager a))
                    = length (portfolio_history (Analyzer.db_manager a)))
      by apply length_order_by.
    lia.
Qed.

Lemma report_after_analysis_witness :
  snd (print_performance_report
         (fst (analyze_performance pow_whole default_rate
                 (new_analyzer hundred_shares_db))))
  = Raise (KeyError "sortino_ratio").
Proof.
  assert (Hne : portfolio_history
                  (Analyzer.db_manager (new_analyzer hundred_shares_db)) <> [])
    by (vm_compute; discriminate).
  pose proof (report_after_analysis pow_whole default_rate
                (new_analyzer hundred_shares_db) Hne) as H.
  cbv zeta in H. destruct H as (H & _ & Hshort).
  rewrite Hshort in H; [exact H|]. vm_compute. lia.
Defined.

(* ===================================================================== *)
(** * The analyzer's pairs and the engine's round trips *)
(* ===================================================================== *)


Lemma filter_all {A : Type} (f : A -> bool) (l : list A) :
  (forall x, In x l -> f x = true) -> List.filter f l = l.
Proof.
  induction l as [|x l IH]; intros H; [reflexivity|].
  cbn [List.filter]. rewrite (H x) by (left; reflexivity).
  f_equal. apply IH. intros y Hy. apply H. right. exact Hy.
Qed.


Lemma trade_dict_lookup (t1 t2 t3 t4 t5 t6 t7 t8 t9 : pyval) :
  let t : dict :=
    list_to_map
      [("total_trades", t1); ("winning_trades", t2); ("losing_trades", t3);
       ("win_rate", t4); ("avg_win", t5); ("avg_loss", t6);
       ("profit_factor", t7); ("largest_win", t8); ("largest_loss", t9)]%string in
  t !! "total_trades" = Some t1 /\ t !! "winning_trades" = Some t2
  /\ t !! "losing_trades" = Some t3.
Proof. repeat split; vm_compute; reflexivity. Qed.

(** The counts of the trade metrics when at least one Sell is paired. *)
Lemma _calculate_trade_metrics_counts (s : Analyzer.t) :
  let pnl := trade_pnl_of (List.filter is_buy (Analyzer.trades_df s))
                          (List.filter is_sell (Analyzer.trades_df s)) in
  pnl <> [] ->
  exists t : dict,
    _calculate_trade_metrics s = (s, Ok t)
    /\ t !! "total_trades" = Some (PyInt (len pnl))
    /\ t !! "winning_trades"
       = Some (PyInt (len (List.filter (fun x => PrimFloat.ltb 0 x) pnl)))
    /\ t !! "losing_trades"
       = Some (PyInt (len (List.filter (fun x => PrimFloat.ltb x 0) pnl))).
Proof.
  intros pnl Hpnl. unfold _calculate_trade_metrics, bind, gets, lift, ret.
  cbn beta iota zeta. fold pnl.
  destruct (Analyzer.trades_df s) as [|x l] eqn:Hdf; [contradiction|].
  cbn [length Nat.eqb].
  destruct pnl as [|v pnl'] eqn:Hp; [contradiction|].
  cbn [length Nat.eqb].
  rewrite py_div_ints by (unfold len; cbn [length]; lia).
  eexists. split; [reflexivity|]. apply trade_dict_lookup.
Qed.



(* ===================================================================== *)
(** * The exported trade analysis *)
(* ===================================================================== *)

Lemma export_step_pnl (buy_trades : list Trade.t) (acc : list TradeAnalysis.t)
    (s : Trade.t) :
  exists new : list TradeAnalysis.t,
    export_step buy_trades acc s = acc ++ new
    /\ map TradeAnalysis.Profit_Loss_Dollar new
       = match paired_buy buy_trades s with
         | Some b => [pair_pnl b s]
         | None => []
         end
    /\ map TradeAnalysis.Trade_Number new
       = map (fun n => len acc + Z.of_nat n) (seq 1 (length new))
    /\ Forall (fun r => TradeAnalysis.Trade_Type r =
                        if PrimFloat.ltb 0 (TradeAnalysis.Profit_Loss_Dollar r)
                        then Win else Loss) new.
Proof.
  unfold export_step, paired_buy.
  destruct (last (prev_buys buy_trades s)) as [b|].
  - eexists [_]. split; [reflexivity|]. split; [reflexivity|].
    split; [reflexivity|]. repeat constructor.
  - exists []. split; [symmetry; apply app_nil_r|]. repeat split. constructor.
Qed.

Lemma map_seq_offset (a : Z) (k s n : nat) :
  map (fun i => a + Z.of_nat k + Z.of_nat i) (seq s n)
  = map (fun i => a + Z.of_nat i) (seq (k + s) n).
Proof.
  revert s. induction n as [|n IH]; intros s; [reflexivity|].
  cbn [seq map]. f_equal; [lia|]. rewrite IH, Nat.add_succ_r. reflexivity.
Qed.

Lemma export_fold (buy_trades sell_trades : list Trade.t)
    (acc : list TradeAnalysis.t) :
  exists new : list TradeAnalysis.t,
    fold_left (export_step buy_trades) sell_trades acc = acc ++ new
    /\ map TradeAnalysis.Profit_Loss_Dollar new
       = trade_pnl_of buy_trades sell_trades
    /\ map TradeAnalysis.Trade_Number new
       = map (fun n => len acc + Z.of_nat n) (seq 1 (length new))
    /\ Forall (fun r => TradeAnalysis.Trade_Type r =
                        if PrimFloat.ltb 0 (TradeAnalysis.Profit_Loss_Dollar r)
                        then Win else Loss) new.
Proof.
  revert acc. induction sell_trades as [|s l IH]; intros acc.
  - exists []. split; [symmetry; apply app_nil_r|]. repeat split. constructor.
  - cbn [fold_left].
    destruct (export_step_pnl buy_trades acc s) as (n1 & -> & Hp1 & Hn1 & Ht1).
    destruct (IH (acc ++ n1)) as (n2 & -> & Hp2 & Hn2 & Ht2).
    exists (n1 ++ n2). split; [symmetry; apply app_assoc|].
    split; [|split].
    + rewrite map_app, Hp1, Hp2. reflexivity.
    + rewrite map_app, Hn1, Hn2, length_app, seq_app, map_app. f_equal.
      replace (1 + length n1)%nat with (length n1 + 1)%nat by lia.
      rewrite <- (map_seq_offset (len acc) (length n1) 1 (length n2)).
      apply map_ext. intros n. unfold len. rewrite length_app. lia.
    + apply List.Forall_app. split; assumption.
Qed.

Lemma count_wins (rows_ : list TradeAnalysis.t) :
  Forall (fun r => TradeAnalysis.Trade_Type r =
                   if PrimFloat.ltb 0 (TradeAnalysis.Profit_Loss_Dollar r)
                   then Win else Loss) rows_ ->
  length (List.filter is_win rows_)
  = length (List.filter (fun x => PrimFloat.ltb 0 x)
              (map TradeAnalysis.Profit_Loss_Dollar rows_))
  /\ (length (List.filter (fun x => PrimFloat.ltb x 0)
                (map TradeAnalysis.Profit_Loss_Dollar rows_))
      <= length (List.filter is_loss rows_))%nat.
Proof.
  induction 1 as [|r l Hr Hl [IH1 IH2]]; [split; reflexivity|].
  cbn [map List.filter]. unfold is_win at 1, is_loss at 1. rewrite Hr.
  destruct (PrimFloat.ltb 0 (TradeAnalysis.Profit_Loss_Dollar r)) eqn:Hpos.
  - destruct (ltb_asym _ _ Hpos) as [Hneg _]. rewrite Hneg.
    cbn [length]. split; [f_equal; exact IH1 | exact IH2].
  - destruct (PrimFloat.ltb (TradeAnalysis.Profit_Loss_Dollar r) 0);
      cbn [length]; split; try exact IH1; lia.
Qed.

(** X17. The trade analysis exported after an analysis has one row per
    paired Sell, numbered from 1, with the profits and losses the trade
    metrics were computed from.  Its rows marked Win are as many as the
    metrics' winning trades; every other row is marked Loss, a trade closed
    at no profit among them, so that the rows marked Loss can be more than
    the metrics' losing trades, never fewer. *)
Theorem export_matches_metrics (pow : float -> float -> float) (rf : pyval)
    (a : Analyzer.t) :
  portfolio_history (Analyzer.db_manager a) <> [] ->
  let a' := fst (analyze_performance pow rf a) in
  let rows_ := export_trade_analysis a' in
  let db := Analyzer.db_manager a in
  map TradeAnalysis.Trade_Number rows_ = map Z.of_nat (seq 1 (length rows_))
  /\ map TradeAnalysis.Profit_Loss_Dollar rows_
     = trade_pnl_of (List.filter is_buy (get_trades db))
                    (List.filter is_sell (get_trades db))
  /\ (length (List.filter is_win rows_) + length (List.filter is_loss rows_)
      = length rows_)%nat
  /\ (rows_ <> [] ->
      Analyzer.metrics a' !! "total_trades" = Some (PyInt (len rows_))
      /\ Analyzer.metrics a' !! "winning_trades"
         = Some (PyInt (len (List.filter is_win rows_)))
      /\ exists n : Z,
           Analyzer.metrics a' !! "losing_trades" = Some (PyInt n)
           /\ n <= len (List.filter is_loss rows_)).
Proof.
  intros Hne a' rows_ db.
  destruct (analyze_performance_run pow rf a Hne)
    as (m & t & Hm & Hmetrics & _ & _ & _ & Ht & Hkeys).
  destruct (analyze_performance_eq pow rf a Hne)
    as (b1 & b2 & b3 & b4 & b5 & b6 & b7 & r & t1 & t2 & t3 & t4 & t5 & t6
        & t7 & t8 & t9 & d1 & d2 & d3 & H).
  cbv zeta in H. destruct H as (_ & _ & _ & _ & _ & Heq).
  assert (Hdf : Analyzer.trades_df a' = get_trades db).
  { subst a'. rewrite Heq. reflexivity. }
  set (pnl := trade_pnl_of (List.filter is_buy (get_trades db))
                           (List.filter is_sell (get_trades db))).
  assert (Hrows : exists new : list TradeAnalysis.t,
             rows_ = new
             /\ map TradeAnalysis.Profit_Loss_Dollar new = pnl
             /\ map TradeAnalysis.Trade_Number new
                = map (fun n => len (@nil TradeAnalysis.t) + Z.of_nat n)
                    (seq 1 (length new))
             /\ Forall (fun r => TradeAnalysis.Trade_Type r =
                                 if PrimFloat.ltb 0 (TradeAnalysis.Profit_Loss_Dollar r)
                                 then Win else Loss) new).
  { subst rows_. unfold export_trade_analysis. cbv zeta. rewrite Hdf.
    destruct (get_trades db) as [|x l] eqn:Hread.
    - exists []. repeat split. constructor.
    - cbn [length Nat.eqb].
      destruct (export_fold (List.filter is_buy (x :: l))
                  (List.filter is_sell (x :: l)) []) as (new & Hnew & H).
      exists new. split; [exact Hnew | exact H]. }
  destruct Hrows as (new & Hnew & Hp & Hn & Hty).
  rewrite Hnew. clear Hnew rows_.
  destruct (count_wins new Hty) as [Hwin Hloss]. rewrite Hp in Hwin, Hloss.
  split; [exact Hn|]. split; [exact Hp|]. split.
  { clear -Hty. induction new as [|x l IH]; [reflexivity|].
    apply List.Forall_cons_iff in Hty as [_ Hty]. specialize (IH Hty).
    cbn [List.filter]. unfold is_win at 1, is_loss at 1.
    destruct (TradeAnalysis.Trade_Type x); cbn [length]; lia. }
  intros Hrows.
  assert (Hpnl : pnl <> []).
  { intros Hnil. rewrite Hnil in Hp. destruct new; [contradiction | discriminate]. }
  destruct (_calculate_trade_metrics_counts (loaded a) Hpnl)
    as (t' & Ht' & Htotal & Hwins & Hlosses).
  rewrite Ht in Ht'. injection Ht' as <-.
  subst a'. rewrite Hmetrics.
  unfold trade_keys in Hkeys.
  apply List.Forall_cons_iff in Hkeys as [Hk1 Hkeys].
  apply List.Forall_cons_iff in Hkeys as [Hk2 Hkeys].
  apply List.Forall_cons_iff in Hkeys as [Hk3 _].
  rewrite Hk1, Hk2, Hk3, Htotal, Hwins, Hlosses.
  change (trade_pnl_of (List.filter is_buy (Analyzer.trades_df (loaded a)))
            (List.filter is_sell (Analyzer.trades_df (loaded a)))) with pnl.
  unfold len. rewrite <- Hp at 1. rewrite length_map, Hwin.
  split; [reflexivity|]. split; [reflexivity|].
  eexists. split; [reflexivity|]. lia.
Qed.

Lemma export_matches_metrics_witness :
  map TradeAnalysis.Trade_Number
    (export_trade_analysis
       (fst (analyze_performance pow_whole default_rate
               (new_analyzer hundred_shares_db))))
  = [1]
  /\ Analyzer.metrics
       (fst (analyze_performance pow_whole default_rate
               (new_analyzer hundred_shares_db))) !! "winning_trades"
     = Some (PyInt 1).
Proof.
  assert (Hne : portfolio_history
                  (Analyzer.db_manager (new_analyzer hundred_shares_db)) <> [])
    by (vm_compute; discriminate).
  pose proof (export_matches_metrics pow_whole default_rate
                (new_analyzer hundred_shares_db) Hne) as H.
  cbv zeta in H. destruct H as (Hn & _ & _ & Hm).
  split.
  - rewrite Hn. vm_compute. reflexivity.
  - rewrite (proj1 (proj2 (Hm ltac:(vm_compute; discriminate)))).
    vm_compute. reflexivity.
Defined.

(* ===================================================================== *)
(** * An analysis after a run *)
(* ===================================================================== *)






(* ===================================================================== *)
(** * Losses and drawdowns are reported as magnitudes *)
(* ===================================================================== *)

Lemma py_abs_not_negative (v : pyval) : py_ltb (py_abs v) (PyInt 0) = false.
Proof.
  destruct v as [a|f|f]; cbn [py_abs py_ltb to_float].
  - apply Z.ltb_ge. apply Z.abs_nonneg.
  - change (float_of_Z 0) with 0%float. apply abs_not_negative.
  - change (float_of_Z 0) with 0%float. apply abs_not_negative.
Qed.

Lemma _calculate_trade_metrics_magnitudes (s : Analyzer.t) :
  exists v1 v2 v3 v4 v5 v6 v7 v8 v9 : pyval,
    _calculate_trade_metrics s =
    (s, Ok (list_to_map
              [("total_trades", v1); ("winning_trades", v2);
               ("losing_trades", v3); ("win_rate", v4); ("avg_win", v5);
               ("avg_loss", v6); ("profit_factor", v7); ("largest_win", v8);
               ("largest_loss", v9)]%string))
    /\ py_ltb v6 (PyInt 0) = false
    /\ py_ltb v7 (PyInt 0) = false
    /\ py_ltb v9 (PyInt 0) = false.
Proof.
  unfold _calculate_trade_metrics, bind, gets, lift, ret. cbn beta iota zeta.
  destruct (length (Analyzer.trades_df s) =? 0)%nat;
    [do 9 eexists; split; [reflexivity|]; repeat split|].
  set (pnl := trade_pnl_of _ _).
  destruct (length pnl =? 0)%nat;
    [do 9 eexists; split; [reflexivity|]; repeat split|].
  set (losing := List.filter (fun x => PrimFloat.ltb x 0) pnl).
  set (winning := List.filter (fun x => PrimFloat.ltb 0 x) pnl).
  assert (Hmag : forall (c : bool) (x : pyval),
             py_ltb (if c then py_abs x else PyInt 0) (PyInt 0) = false).
  { intros [|] x; [apply py_abs_not_negative | reflexivity]. }
  assert (Hpf : forall (c : bool) (x : pyval),
             py_ltb (if c then py_abs x else PyFloat infinity) (PyInt 0) = false).
  { intros [|] x; [apply py_abs_not_negative | reflexivity]. }
  destruct (Z.ltb_spec 0 (len pnl)) as [Hpos|Hzero].
  - rewrite py_div_ints by lia. do 9 eexists. split; [reflexivity|].
    split; [apply Hmag|]. split; [apply Hpf | apply Hmag].
  - do 9 eexists. split; [reflexivity|].
    split; [apply Hmag|]. split; [apply Hpf | apply Hmag].
Qed.

Lemma _calculate_drawdown_metrics_magnitudes (s : Analyzer.t) :
  Analyzer.portfolio_df s <> [] ->
  exists v1 v2 v3 : pyval,
    _calculate_drawdown_metrics s =
    (s, Ok (list_to_map [("max_drawdown", py_abs v1);
                         ("current_drawdown", py_abs v2);
                         ("avg_drawdown", py_abs v3)]%string)).
Proof.
  intros Hne. unfold _calculate_drawdown_metrics, bind, gets, lift, ret.
  cbn beta iota zeta. unfold total_values.
  destruct (Analyzer.portfolio_df s) as [|r l]; [contradiction|].
  cbn [map expanding_max combine]. unfold iloc_last.
  destruct (last_cons_defined
              (PrimFloat.mul
                 (PrimFloat.div
                    (PrimFloat.sub (Portfolio.total_value r) (Portfolio.total_value r))
                    (Portfolio.total_value r)) 100)
              (map (fun vp : float * float =>
                      PrimFloat.mul
                        (PrimFloat.div (PrimFloat.sub (fst vp) (snd vp)) (snd vp)) 100)
                   (combine (map Portfolio.total_value l)
                      (expanding_max_from (Portfolio.total_value r)
                         (map Portfolio.total_value l))))) as [y Hy].
  cbn [fst snd] in *. rewrite Hy. do 3 eexists. reflexivity.
Qed.

Lemma drawdown_dict_lookup (d1 d2 d3 : pyval) :
  map (fun k => (list_to_map [("max_drawdown", d1); ("current_drawdown", d2);
                              ("avg_drawdown", d3)]%string : dict) !! k)
      ["max_drawdown"; "current_drawdown"; "avg_drawdown"]%string
  = map Some [d1; d2; d3].
Proof. vm_compute. reflexivity. Qed.

Lemma combined_metrics_losses (b1 b2 b3 b4 b5 b6 b7 : pyval) (r : dict)
    (t1 t2 t3 t4 t5 t6 t7 t8 t9 d1 d2 d3 : pyval) :
  (exists v1 v2 : pyval,
      r = list_to_map [("sharpe_ratio", v1); ("annualized_volatility", v2)]%string)
  \/ (exists v1 v2 v3 : pyval,
        r = list_to_map [("annualized_volatility", v1); ("sharpe_ratio", v2);
                         ("sortino_ratio", v3)]%string) ->
  let b : dict :=
    list_to_map
      [("initial_capital", b1); ("final_portfolio_value", b2);
       ("total_return", b3); ("annualized_return", b4); ("total_days", b5);
       ("avg_daily_return", b6); ("daily_volatility", b7)]%string in
  let t : dict :=
    list_to_map
      [("total_trades", t1); ("winning_trades", t2); ("losing_trades", t3);
       ("win_rate", t4); ("avg_win", t5); ("avg_loss", t6);
       ("profit_factor", t7); ("largest_win", t8); ("largest_loss", t9)]%string in
  let d : dict :=
    list_to_map [("max_drawdown", d1); ("current_drawdown", d2);
                 ("avg_drawdown", d3)]%string in
  let m := dict_merge (dict_merge (dict_merge b r) t) d in
  map (fun k => m !! k)
    ["max_drawdown"; "current_drawdown"; "avg_drawdown"; "avg_loss";
     "largest_loss"; "profit_factor"]%string
  = map Some [d1; d2; d3; t6; t9; t7]
  /\ t !! "avg_loss" = Some t6 /\ t !! "profit_factor" = Some t7
  /\ t !! "largest_loss" = Some t9
  /\ map (fun k => d !! k) ["max_drawdown"; "current_drawdown"; "avg_drawdown"]%string
     = map Some [d1; d2; d3].
Proof.
  intros [(v1 & v2 & ->)|(v1 & v2 & v3 & ->)]; intros b t d m;
    subst b t d m; repeat split; vm_compute; reflexivity.
Qed.

(** X20. The metrics report losses and drawdowns as magnitudes: in the
    dictionary an analysis returns, the maximum, current and average
    drawdown, the average and the largest loss and the profit factor are
    never below zero. *)
Theorem losses_are_magnitudes (pow : float -> float -> float) (rf : pyval)
    (a : Analyzer.t) (m : dict) :
  snd (analyze_performance pow rf a) = Ok m ->
  Forall (fun k => exists v : pyval,
                     m !! k = Some v /\ py_ltb v (PyInt 0) = false)
    ["max_drawdown"; "current_drawdown"; "avg_drawdown"; "avg_loss";
     "largest_loss"; "profit_factor"]%string.
Proof.
  intros Hm.
  assert (Hne : portfolio_history (Analyzer.db_manager a) <> []).
  { intros Hempty.
    rewrite (analyze_performance_empty pow rf _ Hempty) in Hm. discriminate. }
  assert (Hdf : Analyzer.portfolio_df (loaded a) <> []).
  { cbn. intros H. apply order_by_nil in H. contradiction. }
  destruct (analyze_performance_eq pow rf a Hne)
    as (b1 & b2 & b3 & b4 & b5 & b6 & b7 & r & t1 & t2 & t3 & t4 & t5 & t6
        & t7 & t8 & t9 & d1 & d2 & d3 & H).
  cbv zeta in H. destruct H as (_ & _ & Ht & Hd & Hshape & Heq).
  rewrite Heq in Hm. cbn [snd] in Hm.
  destruct (combined_metrics_losses b1 b2 b3 b4 b5 b6 b7 r t1 t2 t3 t4 t5 t6 t7
              t8 t9 d1 d2 d3 Hshape) as (Hkeys & Ht6 & Ht7 & Ht9 & Hdk).
  match type of Hm with Ok ?X = _ => set (merged := X) in * end.
  assert (Hmerged : merged = m) by congruence.
  rewrite Hmerged in Hkeys. clear Hmerged Hm Heq. clearbody merged.
  destruct (_calculate_trade_metrics_magnitudes (loaded a))
    as (v1 & v2 & v3 & v4 & v5 & v6 & v7 & v8 & v9 & Ht' & H6 & H7 & H9).
  destruct (_calculate_drawdown_metrics_magnitudes (loaded a) Hdf)
    as (x1 & x2 & x3 & Hd').
  rewrite Ht in Ht'. rewrite Hd in Hd'.
  assert (Ht_eq : t6 = v6 /\ t7 = v7 /\ t9 = v9).
  { pose proof (f_equal (fun p : Analyzer.t * result dict =>
                           match snd p with
                           | Ok t => (t !! "avg_loss", t !! "profit_factor",
                                      t !! "largest_loss")
                           | Raise _ => (None, None, None)
                           end) Ht') as H.
    cbv beta in H. cbn [snd] in H. rewrite Ht6, Ht7, Ht9 in H.
    vm_compute in H. injection H as -> -> ->. repeat split. }
  assert (Hd_eq : d1 = py_abs x1 /\ d2 = py_abs x2 /\ d3 = py_abs x3).
  { pose proof (f_equal (fun p : Analyzer.t * result dict =>
                           match snd p with
                           | Ok d => map (fun k => d !! k)
                                       ["max_drawdown"; "current_drawdown";
                                        "avg_drawdown"]%string
                           | Raise _ => []
                           end) Hd') as H.
    cbv beta in H. cbn [snd] in H. rewrite Hdk in H.
    rewrite (drawdown_dict_lookup (py_abs x1) (py_abs x2) (py_abs x3)) in H.
    cbn [map] in H. injection H as H1 H2 H3. repeat split; assumption. }
  destruct Ht_eq as (-> & -> & ->). destruct Hd_eq as (-> & -> & ->).
  cbn [map] in Hkeys.
  injection Hkeys as Hk1 Hk2 Hk3 Hk4 Hk5 Hk6.
  repeat (constructor; [eexists; split; [eassumption|];
                        first [apply py_abs_not_negative | assumption]|]).
  constructor.
Qed.

Lemma losses_are_magnitudes_witness :
  exists m : dict,
    snd (analyze_performance pow_whole default_rate (new_analyzer hold_db)) = Ok m
    /\ exists v : pyval,
         m !! "max_drawdown" = Some v /\ py_ltb v (PyInt 0) = false.
Proof.
  destruct (snd (analyze_performance pow_whole default_rate (new_analyzer hold_db)))
    as [m|err] eqn:Hm.
  2: { apply (f_equal (fun r : result dict =>
                         match r with Ok _ => true | Raise _ => false end)) in Hm.
       vm_compute in Hm. discriminate. }
  exists m. split; [reflexivity|].
  exact (List.Forall_inv
           (losses_are_magnitudes pow_whole default_rate (new_analyzer hold_db) m Hm)).
Defined.

(* ===================================================================== *)
(** * The strategies' exit conditions *)
(* ===================================================================== *)

Lemma py_geb_np_nan (x : pyval) (mb : float) :
  PrimFloat.is_nan mb = true -> py_geb x (NpFloat mb) = false.
Proof.
  intros Hnan. unfold py_geb, py_leb. cbn [to_float]. apply leb_nan_l, Hnan.
Qed.

Lemma after_period_bollinger (row : SignalRow.t) (e : BacktestingEngine) :
  SignalRow.middle_band row <> None ->
  after_period row (with_strategy (Some BollingerBandsStrategy) e)
  = with_strategy (Some BollingerBandsStrategy)
      (after_period row (with_strategy None e)).
Proof.
  intros Hmb. destruct e as [ic c ps lpv db st cd cp cr te wt lt ep].
  unfold after_period, with_strategy. engine_fields.
  destruct (PrimFloat.is_nan (SignalRow.price row)); [reflexivity|].
  unfold traded, should_exit, BollingerBandsStrategy. engine_fields.
  destruct (SignalRow.middle_band row) as [mb|]; [|contradiction].
  assert (Hexit : py_geb (NpFloat (SignalRow.price row)) (NpFloat mb)
                  = if negb (PrimFloat.is_nan mb)
                    then py_geb (NpFloat (SignalRow.price row)) (NpFloat mb)
                    else false).
  { destruct (PrimFloat.is_nan mb) eqn:Hnan; [|reflexivity].
    apply py_geb_np_nan, Hnan. }
  rewrite <- Hexit.
  destruct (py_gtb ps (PyInt 0)).
  - destruct (py_geb (NpFloat (SignalRow.price row)) (NpFloat mb)); [|reflexivity].
    destruct (py_leb ps (PyInt 0)); [reflexivity|].
    unfold sold, marked. engine_fields.
    destruct (py_gtb (NpFloat (SignalRow.price row)) ep); reflexivity.
  - destruct (PrimFloat.eqb (SignalRow.signal row) 1); [|reflexivity].
    destruct (py_leb c (PyInt 0)); reflexivity.
Qed.

Lemma after_periods_bollinger (l : list SignalRow.t) (e : BacktestingEngine) :
  Forall (fun row => SignalRow.middle_band row <> None) l ->
  after_periods l (with_strategy (Some BollingerBandsStrategy) e)
  = with_strategy (Some BollingerBandsStrategy)
      (after_periods l (with_strategy None e)).
Proof.
  intros Hl. revert e. induction Hl as [|row l Hrow Hl IH]; intros e.
  - reflexivity.
  - cbn [after_periods fold_left].
    fold (after_periods l
            (after_period row (with_strategy (Some BollingerBandsStrategy) e))).
    fold (after_periods l (after_period row (with_strategy None e))).
    rewrite (after_period_bollinger row e Hrow), IH. f_equal. f_equal.
    destruct (after_period row (with_strategy None e)) eqn:Heq.
    assert (Hst : strategy (after_period row (with_strategy None e)) = None).
    { unfold after_period, marked, traded, bought, sold.
      repeat match goal with
             | |- context [if ?b then _ else _] => destruct b
             end; reflexivity. }
    rewrite Heq in Hst. cbn in Hst. subst. reflexivity.
Qed.

(** X18. On a series that has the middle-band column, the Bollinger Bands
    strategy's exit condition is the engine's own default: a run with the
    strategy object and a run without any strategy write the same trades
    and snapshots and return the same summary.  (Missing values of the
    band make no difference: no comparison with NaN holds.) *)
Theorem bollinger_exit_is_default_exit (df : DataFrame) (e : BacktestingEngine) :
  Forall (fun row => SignalRow.middle_band row <> None) (tail (rows df)) ->
  let r1 := run_backtest df (with_strategy (Some BollingerBandsStrategy) e) in
  let r2 := run_backtest df (with_strategy None e) in
  snd r1 = snd r2
  /\ db_manager (fst r1) = db_manager (fst r2)
  /\ cash (fst r1) = cash (fst r2)
  /\ position_shares (fst r1) = position_shares (fst r2).
Proof.
  intros Hcol r1 r2. subst r1 r2. rewrite !run_backtest_eq.
  destruct (missing_columns df).
  - rewrite !_generate_summary_state.
    change (started (with_strategy (Some BollingerBandsStrategy) e))
      with (with_strategy (Some BollingerBandsStrategy) (started e)).
    change (started (with_strategy None e))
      with (with_strategy None (started e)).
    rewrite (after_periods_bollinger _ _ Hcol).
    destruct (after_periods (tail (rows df)) (with_strategy None (started e)))
      as [ic c ps lpv db st cd cp cr te wt lt ep].
    split; [|repeat split].
    unfold with_strategy, _generate_summary, bind, gets, lift, ret.
    engine_fields. cbn beta iota.
    destruct (py_div _ _); [|reflexivity].
    destruct (0 <? te); [|reflexivity].
    destruct (py_div _ _); reflexivity.
  - repeat split.
Qed.

Lemma bollinger_exit_is_default_exit_witness :
  snd (run_backtest round_trip_df
         (__init__ (PyFloat 100000) empty_db (Some BollingerBandsStrategy)))
  = snd (run_backtest round_trip_df fresh_engine).
Proof.
  assert (Hcol : Forall (fun row => SignalRow.middle_band row <> None)
                   (tail (rows round_trip_df))).
  { cbn. repeat constructor; discriminate. }
  exact (proj1 (bollinger_exit_is_default_exit round_trip_df fresh_engine Hcol)).
Defined.

Lemma no_exit_traded (row : SignalRow.t) (e : BacktestingEngine) :
  strategy e = None -> no_middle_band row = true ->
  strategy (traded row e) = None
  /\ count_type SELL (trades (db_manager (traded row e)))
     = count_type SELL (trades (db_manager e)).
Proof.
  intros Hst Hrow. unfold traded, should_exit. rewrite Hst.
  unfold no_middle_band in Hrow.
  assert (Hexit : match SignalRow.middle_band row with
                  | Some middle_band =>
                      if negb (PrimFloat.is_nan middle_band)
                      then py_geb (current_price e) (NpFloat middle_band)
                      else false
                  | None => false
                  end = false).
  { destruct (SignalRow.middle_band row) as [mb|]; [|reflexivity].
    rewrite Hrow. reflexivity. }
  rewrite Hexit.
  destruct (py_gtb (position_shares e) (PyInt 0)); [split; [exact Hst | reflexivity]|].
  destruct (PrimFloat.eqb (SignalRow.signal row) 1); [|split; [exact Hst | reflexivity]].
  destruct (py_leb (cash e) (PyInt 0)); [split; [exact Hst | reflexivity]|].
  split; [exact Hst|]. unfold bought. engine_fields.
  cbn [log_trade trades]. rewrite count_type_app. cbn. lia.
Qed.

Lemma no_exit_after_periods (l : list SignalRow.t) (e : BacktestingEngine) :
  strategy e = None -> Forall (fun row => no_middle_band row = true) l ->
  count_type SELL (trades (db_manager (after_periods l e)))
  = count_type SELL (trades (db_manager e)).
Proof.
  intros Hst Hl. revert e Hst. induction Hl as [|row l Hrow Hl IH]; intros e Hst.
  - reflexivity.
  - cbn [after_periods fold_left]. fold (after_periods l (after_period row e)).
    unfold after_period. destruct (PrimFloat.is_nan (SignalRow.price row)).
    + rewrite IH by exact Hst. reflexivity.
    + destruct (no_exit_traded row (set_current row e) Hst Hrow) as [Hst' Hc].
      rewrite IH by exact Hst'. rewrite trades_marked. exact Hc.
Qed.

(** X21. Without a strategy object and without a middle band, absent or
    missing on every row, the engine buys and holds: a run logs no Sell and
    at most one trade, a Buy, and its summary has no winning and no losing
    trade. *)
Theorem no_band_buy_and_hold (df : DataFrame) (e : BacktestingEngine) :
  strategy e = None ->
  Forall (fun row => no_middle_band row = true) (tail (rows df)) ->
  let l := trades (db_manager (fst (run_backtest df e))) in
  (l = [] \/ exists b : Trade.t, l = [b] /\ Trade.trade_type b = BUY)
  /\ winning_trades (fst (run_backtest df e)) = 0
  /\ losing_trades (fst (run_backtest df e)) = 0.
Proof.
  intros Hst Hrows l.
  pose proof (alternation_inv_run df e) as [Halt _].
  assert (Hsell : count_type SELL l = 0).
  { subst l. rewrite run_backtest_eq. destruct (missing_columns df).
    - rewrite _generate_summary_state.
      rewrite (no_exit_after_periods _ (started e) Hst Hrows). reflexivity.
    - reflexivity. }
  assert (Hcount : counters_inv (fst (run_backtest df e))).
  { rewrite run_backtest_eq. destruct (missing_columns df).
    - rewrite _generate_summary_state.
      apply counters_inv_after_periods, counters_inv_started.
    - apply counters_inv_started. }
  assert (Hround : round_trip_inv (fst (run_backtest df e))).
  { rewrite run_backtest_eq. destruct (missing_columns df).
    - rewrite _generate_summary_state.
      apply round_trip_inv_after_periods;
        [apply alternation_inv_started | apply round_trip_inv_started].
    - apply round_trip_inv_started. }
  destruct Hround as (_ & Hw & Hl & _). fold l in Hw, Hl.
  unfold trade_types in Halt. fold l in Halt.
  split.
  - destruct l as [|b [|s l']]; [left; reflexivity | right |].
    + exists b. split; [reflexivity|].
      cbn [map alternating] in Halt. apply andb_prop in Halt as [Hb _].
      apply trade_type_eqb_eq, Hb.
    + exfalso. cbn [map alternating other] in Halt.
      apply andb_prop in Halt as [Hb Halt]. apply andb_prop in Halt as [Hs _].
      apply trade_type_eqb_eq in Hb, Hs.
      unfold count_type, len in Hsell. cbn [List.filter] in Hsell.
      rewrite Hb, Hs in Hsell. cbn [trade_type_eqb length] in Hsell. lia.
  - assert (Hrt : round_trips l = []).
    { pose proof (round_trips_count l Halt) as H. rewrite Hsell in H.
      unfold len in H. destruct (round_trips l); [reflexivity | discriminate]. }
    rewrite Hw, Hl, Hrt. split; reflexivity.
Qed.

Lemma no_band_buy_and_hold_witness :
  map Trade.trade_type
    (trades (db_manager (fst (run_backtest scenario_df fresh_engine))))
  = [BUY].
Proof.
  assert (Hrows : Forall (fun row => no_middle_band row = true)
                    (tail (rows scenario_df))).
  { cbn. repeat constructor. }
  destruct (proj1 (no_band_buy_and_hold scenario_df fresh_engine eq_refl Hrows))
    as [Hnil|(b & Hb & Hty)].
  - vm_compute in Hnil. discriminate.
  - rewrite Hb. cbn [map]. rewrite Hty. reflexivity.
Defined.
